(** * event_fixer: renumbering of event keys in merged AT-TPC run files

    A shallow embedding of [event_fixer.py].  The HDF5 container is a
    record of finite maps from link names to datasets, the h5py calls the
    script makes ([__getitem__], [move], [keys], item assignment) are
    functions on that record, and the two entry points
    [fix_event_numbers] and [check_timestamps] are programs in a small
    state-and-exception monad whose state is the container together with
    the lines printed so far.  The helper [fix_get_event_numbers], which
    nothing calls, is a program of the same monad; the driver [main] with
    [make_run_path] runs over a directory of such containers. *)

From Stdlib Require Import ZArith Ascii Floats.SpecFloat.
From stdpp Require Import gmap strings list list_numbers pretty.

Local Open Scope Z_scope.

(** ** Exceptions and results *)

(** Why HDF5 refuses to move a link: there is no link of the source name,
    or the destination name is taken.  h5py reports both with the same
    exception class and says which in the message. *)
Inductive move_failure :=
  | SourceMissing (source : string)
  | DestExists (dest : string).

(** The Python exceptions the script can meet.  [KeyError] is what h5py
    raises when a link that is looked up is missing, [ValueError] what it
    raises when a link cannot be moved, [IndexError] stands for an index
    past the end of a dataset; [OtherError] is any other exception, by
    name. *)
Inductive exn :=
  | KeyError (key : string)
  | ValueError (why : move_failure)
  | IndexError (i : nat)
  | OtherError (name : string).

Inductive result (A : Type) :=
  | OK (a : A)
  | Raise (e : exn).
Arguments OK {A} a.
Arguments Raise {A} e.

(** ** Link names *)

(** The f-strings [f"evt{n}_data"], [f"evt{n}_header"], [f"evt{n}_1903"]:
    [pretty] prints an integer in decimal with a leading minus sign, as
    Python's [str] does. *)
Definition evt_key (n : Z) (suffix : string) : string :=
  "evt" +:+ pretty n +:+ suffix.
Global Arguments evt_key : simpl never.

(** ** The container *)

Abbreviation Group := (gmap string).

(** Modelled from the spec: the layout of a run file, which the script
    reads and declares nowhere.  The dataset [meta/meta] holds the first
    event number at position 0 and the last at position 2 (the script reads
    both through [int]; they are integers here); the group [get] and the
    subgroup [evt] of the optional group [frib] map link names to datasets
    of a type [D] that the repair never looks into.  [frib = None] is a
    file without the group [frib], [frib = Some None] one whose [frib] has
    no [evt]. *)
Record Container (D : Type) := mkContainer {
  meta_data : list Z;
  get : option (Group D);
  frib : option (option (Group D))
}.
Arguments mkContainer {D}.
Arguments meta_data {D}.
Arguments get {D}.
Arguments frib {D}.

(** The object a Python variable bound to an h5py group refers to: the
    group lives in the file, so every use goes through the file. *)
Inductive handle := HGet | HFribEvt.

Definition deref {D} (h : handle) (c : Container D) : option (Group D) :=
  match h with
  | HGet => get c
  | HFribEvt => match frib c with Some (Some g) => Some g | _ => None end
  end.

Definition store {D} (h : handle) (g : Group D) (c : Container D) : Container D :=
  match h with
  | HGet => mkContainer (meta_data c) (Some g) (frib c)
  | HFribEvt => mkContainer (meta_data c) (get c) (Some (Some g))
  end.

Definition handle_name (h : handle) : string :=
  match h with HGet => "get" | HFribEvt => "frib/evt" end.

(** [Group.__getitem__] on a healthy file: the dataset behind the link, or
    [KeyError]. *)
Definition h5_getitem {D} (g : Group D) (key : string) : result D :=
  match g !! key with
  | Some d => OK d
  | None => Raise (KeyError key)
  end.

(** [Group.move(source, dest)]: the link is renamed, the dataset is not
    copied.  When the two names are equal h5py returns at once, without
    looking at the group; otherwise a missing source and a destination
    that exists are both a [ValueError]. *)
Definition h5_move {D} (g : Group D) (source dest : string) : result (Group D) :=
  if decide (source = dest) then OK g
  else
    match g !! source with
    | None => Raise (ValueError (SourceMissing source))
    | Some d =>
        match g !! dest with
        | Some _ => Raise (ValueError (DestExists dest))
        | None => OK (<[dest := d]> (delete source g))
        end
    end.

(** ** Printed lines *)

(** One constructor per [print] of the script, carrying the values its
    f-string interpolates. *)
Inductive message :=
  | MsgFixingRun (path : string)
  | MsgCheckingGet
  | MsgGetOffsetDetected
  | MsgGetRepaired
  | MsgCheckingFrib
  | MsgNoFribData (path : string)
  | MsgStartOk (path : string)
  | MsgEndOk (path : string)
  | MsgFribOffsetDetected
  | MsgRunFixed (path : string)
  | MsgCheckingTimestamps
  | MsgMismatch (event this_offset get_raw : Z) (frib_raw offset : spec_float)
  | MsgTimestampsMatch.

(** ** The monad *)

Record World (D : Type) := mkWorld {
  file : Container D;
  stdout : list message
}.
Arguments mkWorld {D}.
Arguments file {D}.
Arguments stdout {D}.

(** A computation returns a value or raises, and in both cases leaves a
    world behind: what was renamed or printed before an exception stays. *)
Definition M (D A : Type) : Type := World D → result A * World D.

Global Instance M_ret {D} : MRet (M D) := λ A a w, (OK a, w).

Global Instance M_bind {D} : MBind (M D) := λ A B k m w,
  match m w with
  | (OK a, w') => k a w'
  | (Raise e, w') => (Raise e, w')
  end.

Definition raise {D A} (e : exn) : M D A := λ w, (Raise e, w).

(** [try: m except: ...] with a bare [except]: the exception becomes a
    value, the world is the one at the point of the raise. *)
Definition attempt {D A} (m : M D A) : M D (result A) :=
  λ w, match m w with
       | (r, w') => (OK r, w')
       end.

Definition print {D} (msg : message) : M D unit :=
  λ w, (OK tt, mkWorld (file w) (stdout w ++ [msg])).

(** [for x in xs: body]. *)
Fixpoint for_ {D A} (xs : list A) (body : A → M D unit) : M D unit :=
  match xs with
  | [] => mret tt
  | x :: xs' => body x ;; for_ xs' body
  end.

(** [range(a, b)] and [enumerate]. *)
Definition range (a b : Z) : list Z := seqZ a (b - a).

Definition enumerate {A} (xs : list A) : list (Z * A) :=
  zip (seqZ 0 (Z.of_nat (length xs))) xs.

(** [meta_data[i]] read through [int]. *)
Definition meta_get {D} (i : nat) : M D Z :=
  λ w, match meta_data (file w) !! i with
       | Some v => (OK v, w)
       | None => (Raise (IndexError i), w)
       end.

(** [meta_data[i] = v]. *)
Definition meta_set {D} (i : nat) (v : Z) : M D unit :=
  λ w, if decide (i < length (meta_data (file w)))%nat
       then (OK tt,
             mkWorld (mkContainer (<[i := v]> (meta_data (file w)))
                                  (get (file w)) (frib (file w)))
                     (stdout w))
       else (Raise (IndexError i), w).

(** [file["get"]] and [file["frib"]["evt"]]. *)
Definition open_group {D} (h : handle) : M D handle :=
  λ w, match deref h (file w) with
       | Some _ => (OK h, w)
       | None => (Raise (KeyError (handle_name h)), w)
       end.

(** [data.move(old_key, new_key)]. *)
Definition move {D} (data : handle) (old_key new_key : string) : M D unit :=
  λ w, match deref data (file w) with
       | None => (Raise (KeyError (handle_name data)), w)
       | Some g =>
           match h5_move g old_key new_key with
           | OK g' => (OK tt, mkWorld (store data g' (file w)) (stdout w))
           | Raise e => (Raise e, w)
           end
       end.

(** [len(data.keys())]. *)
Definition len_keys {D} (data : handle) : M D nat :=
  λ w, match deref data (file w) with
       | None => (Raise (KeyError (handle_name data)), w)
       | Some g => (OK (size g), w)
       end.

(** ** fix_event_numbers *)

Section Repair.
Context {D : Type}.

(** [data[key]] as the accessor answers it.  The repair opens entries
    only to see whether they are there and never looks inside them, so
    what opening an entry answers is left to the accessor; [h5_getitem]
    is the accessor of a healthy file. *)
Variable getitem : Group D → string → result D.

Definition read (data : handle) (key : string) : M D D :=
  λ w, match deref data (file w) with
       | None => (Raise (KeyError (handle_name data)), w)
       | Some g => (getitem g key, w)
       end.

(** Lines 61-66, the body of the loop over the get group. *)
Definition get_body (data : handle) (ie : Z * Z) : M D unit :=
  let '(idx, event) := ie in
  move data (evt_key event "_data") (evt_key idx "_data") ;;
  move data (evt_key event "_header") (evt_key idx "_header").

(** Lines 55-69. *)
Definition get_repair (event_min event_max : Z) : M D unit :=
  print MsgCheckingGet ;;
  if decide (event_min ≠ 0) then
    print MsgGetOffsetDetected ;;
    data ← open_group HGet ;
    for_ (enumerate (range event_min (event_max + 1))) (get_body data) ;;
    meta_set 0 0 ;;
    meta_set 2 (event_max - event_min) ;;
    print MsgGetRepaired
  else mret tt.

(** Lines 101-106, the body of the loop over the frib/evt group. *)
Definition frib_body (data : handle) (event : Z) : M D unit :=
  move data (evt_key (event + 1) "_1903") (evt_key event "_1903") ;;
  move data (evt_key (event + 1) "_header") (evt_key event "_header").

(** Lines 86-91, the body of the [try]. *)
Definition frib_probe (path : string) (data : handle) (event_range : Z)
    : M D unit :=
  read data "evt0_1903" ;;
  print (MsgStartOk path) ;;
  read data (evt_key event_range "_1903") ;;
  print (MsgEndOk path).

(** Lines 95-108. *)
Definition frib_shift (path : string) (data : handle) (event_range : Z)
    : M D unit :=
  print MsgFribOffsetDetected ;;
  for_ (range 0 (event_range + 1)) (frib_body data) ;;
  print (MsgRunFixed path).

(** Lines 71-108.  Each [return] of the script ends the branch it is in. *)
Definition frib_repair (path : string) (event_range : Z) : M D unit :=
  print MsgCheckingFrib ;;
  opened ← attempt (open_group HFribEvt) ;
  match opened with
  | Raise _ => print (MsgNoFribData path)
  | OK data =>
      n ← len_keys data ;
      if decide (n = 0%nat) then print (MsgNoFribData path)
      else
        probed ← attempt (frib_probe path data event_range) ;
        match probed with
        | OK _ => mret tt
        | Raise _ => frib_shift path data event_range
        end
  end.

Definition fix_event_numbers (path : string) : M D unit :=
  print (MsgFixingRun path) ;;
  event_min ← meta_get 0 ;
  event_max ← meta_get 2 ;
  let event_range := event_max - event_min in
  get_repair event_min event_max ;;
  frib_repair path event_range.

End Repair.

(** ** check_timestamps *)

(** Python's [float] is IEEE binary64: 53 bits of precision, exponents
    below 1024.  [py_float] is [float(x)] on an integer, rounding to
    nearest even; the fields of a dataset are numbers of at most 64 bits,
    on which the conversion never overflows. *)
Definition py_float (x : Z) : spec_float := binary_normalize 53 1024 x 0 false.

Definition float_sub (x y : spec_float) : spec_float := SFsub 53 1024 x y.

(** [this_offset - offset > 1] with an [int] on the left of the
    subtraction and a [float] on its right: the integer is converted, the
    subtraction and the comparison are those of floats. *)
Definition exceeds (this_offset : Z) (offset : spec_float) : bool :=
  SFltb (py_float 1) (float_sub (py_float this_offset) offset).

(** Modelled from the spec: a header dataset, a short array of numbers
    with the timestamp of the get stream at position 2 and the timestamp of
    the frib stream at position 1.  The numbers are integers here: [int] is
    the identity on them and [float] is [py_float]. *)
Abbreviation Header := (list Z).

(** [header[i]] on a one-dimensional dataset. *)
Definition index (header : Header) (i : nat) : M Header Z :=
  match header !! i with
  | Some v => mret v
  | None => raise (IndexError i)
  end.

(** Lines 135-144: the loop with its [return], and the [print] that
    follows the loop when it runs to its end. *)
Fixpoint scan (get_group frib_group : handle) (offset : spec_float)
    (events : list Z) : M Header unit :=
  match events with
  | [] => print MsgTimestampsMatch
  | event :: rest =>
      get_header ← read h5_getitem get_group (evt_key event "_header") ;
      frib_header ← read h5_getitem frib_group (evt_key event "_header") ;
      g ← index get_header 2 ;
      f ← index frib_header 1 ;
      let this_offset := g - f in
      if exceeds this_offset offset then
        print (MsgMismatch event this_offset g (py_float f) offset)
      else scan get_group frib_group offset rest
  end.

(** Lines 124-135, and the loop. *)
Definition check_timestamps (path : string) : M Header unit :=
  print MsgCheckingTimestamps ;;
  event_min ← meta_get 0 ;
  event_max ← meta_get 2 ;
  get_group ← open_group HGet ;
  frib_group ← open_group HFribEvt ;
  get_header ← read h5_getitem get_group (evt_key event_min "_header") ;
  g ← index get_header 2 ;
  frib_header ← read h5_getitem frib_group (evt_key event_min "_header") ;
  f ← index frib_header 1 ;
  let offset := float_sub (py_float g) (py_float f) in
  scan get_group frib_group offset (range event_min event_max).

(** ** The renames a loop issues, as a list *)

(** [run_renames g rs] performs the renames [rs] on [g] one after the
    other and stops at the first that raises; the group it returns is the
    one the renames performed so far have left. *)
Fixpoint run_renames {D} (g : Group D) (rs : list (string * string))
    : result unit * Group D :=
  match rs with
  | [] => (OK tt, g)
  | (old_key, new_key) :: rs' =>
      match h5_move g old_key new_key with
      | OK g' => run_renames g' rs'
      | Raise e => (Raise e, g)
      end
  end.

(** The renames of the offset repair, in the words of the description:
    for idx, event enumerating [range(event_min, event_max + 1)], the data
    entry and then the header of [event] go to [idx]. *)
Definition get_schedule (event_min event_max : Z) : list (string * string) :=
  flat_map (λ ie : Z * Z,
              [(evt_key ie.2 "_data", evt_key ie.1 "_data");
               (evt_key ie.2 "_header", evt_key ie.1 "_header")])
           (enumerate (range event_min (event_max + 1))).

(** The renames of the shift by one: for event in
    [range(0, event_range + 1)], the 1903 entry and then the header of
    [event + 1] go to [event]. *)
Definition frib_schedule (event_range : Z) : list (string * string) :=
  flat_map (λ event : Z,
              [(evt_key (event + 1) "_1903", evt_key event "_1903");
               (evt_key (event + 1) "_header", evt_key event "_header")])
           (range 0 (event_range + 1)).

(** Both are instances of one pattern: entry [a + k] goes to [k], for [k]
    from 0 up, first under one suffix and then under the other. *)
Definition shift_schedule (a : Z) (s1 s2 : string) (n : Z)
    : list (string * string) :=
  flat_map (λ k : Z,
              [(evt_key (a + k) s1, evt_key k s1);
               (evt_key (a + k) s2, evt_key k s2)])
           (seqZ 0 n).

(** No rename of [rs], performed in order from [g], lands on a name that
    is taken at the moment it is performed. *)
Fixpoint targets_vacant {D} (g : Group D) (rs : list (string * string)) : Prop :=
  match rs with
  | [] => True
  | (old_key, new_key) :: rs' =>
      g !! new_key = None ∧
      ∀ g', h5_move g old_key new_key = OK g' → targets_vacant g' rs'
  end.

(** The timestamps the checker reads: [get_header[N][2]] and
    [frib_header[N][1]]. *)
Definition get_timestamp (get_group : Group Header) (n : Z) : option Z :=
  header ← get_group !! evt_key n "_header" ; header !! 2%nat.

Definition frib_timestamp (frib_group : Group Header) (n : Z) : option Z :=
  header ← frib_group !! evt_key n "_header" ; header !! 1%nat.

(** ** What the renames and the programs are said to do *)

(** What [shift_schedule a s1 s2 n] makes of [g], for the entries under
    one suffix: entry [k] of the result is entry [a + k] of [g], and the
    names that were left and not filled again are free. *)
Definition shifted {D} (a : Z) (s : string) (n : Z) (g g' : Group D) : Prop :=
  (∀ k, 0 ≤ k < n → g' !! evt_key k s = g !! evt_key (a + k) s) ∧
  (∀ k, a ≤ k < a + n → ¬ (0 ≤ k < n) → g' !! evt_key k s = None).

(** Every other name keeps what it had. *)
Definition untouched {D} (a : Z) (s1 s2 : string) (n : Z) (g g' : Group D)
    : Prop :=
  ∀ key : string,
    (∀ k, 0 ≤ k < n ∨ a ≤ k < a + n →
          key ≠ evt_key k s1 ∧ key ≠ evt_key k s2) →
    g' !! key = g !! key.

(** [m] never changes the part [f] of the file, whether it returns or
    raises. *)
Definition preserves {D X A} (f : Container D → X) (m : M D A) : Prop :=
  ∀ w, f (file (m w).2) = f (file w).

(** The last character of a name: two suffixes that end in different
    characters never give the same name. *)
Definition last_char (s : string) : option ascii :=
  head (reverse (Strings.String.list_ascii_of_string s)).

(** ** Run files for the examples *)

(** A group with the events [first .. last] under two suffixes: the
    entry of event [n] under the first suffix holds [n], the one under the
    second holds [1000 + n]. *)
Definition stream_events (s1 s2 : string) (first last : Z) : Group Z :=
  list_to_map
    (flat_map (λ n, [(evt_key n s1, n); (evt_key n s2, 1000 + n)])
              (seqZ first (last + 1 - first))).

Definition get_events : Z → Z → Group Z := stream_events "_data" "_header".

Definition frib_events : Z → Z → Group Z := stream_events "_1903" "_header".

(** The file of the example: events 5 to 10 in the get group, metadata
    [5, _, 10], no frib group. *)
Definition offset_file : Container Z :=
  mkContainer [5; 77; 10] (Some (get_events 5 10)) None.

(** A file whose frib stream is one ahead: events 0 to 2 in the get
    group, events 1 to 3 in frib/evt, metadata [0, _, 2]. *)
Definition shifted_file : Container Z :=
  mkContainer [0; 77; 2] (Some (get_events 0 2)) (Some (Some (frib_events 1 3))).

(** A file with the offset defect only: events 5 to 7 in the get group,
    events 0 to 2 in frib/evt, metadata [5, _, 7]. *)
Definition offset_only_file : Container Z :=
  mkContainer [5; 77; 7] (Some (get_events 5 7)) (Some (Some (frib_events 0 2))).

(** A file whose frib stream is indexed as it should be. *)
Definition indexed_file : Container Z :=
  mkContainer [0; 77; 2] (Some (get_events 0 2)) (Some (Some (frib_events 0 2))).

(** An accessor that cannot open anything, whatever is in the group. *)
Definition unreadable (g : Group Z) (key : string) : result Z :=
  Raise (OtherError "OSError").

(** The boundary case of one event: event 5 alone in the get group,
    event 1 alone in frib/evt, metadata [5, _, 5]. *)
Definition single_event_file : Container Z :=
  mkContainer [5; 77; 5] (Some (get_events 5 5)) (Some (Some (frib_events 1 1))).

(** Two files with a gap: in the first the header of event 6 is missing
    from the get group, in the second the 1903 entry of event 2 is missing
    from frib/evt. *)
Definition gap_in_get : Container Z :=
  mkContainer [5; 77; 7] (Some (delete (evt_key 6 "_header") (get_events 5 7)))
              None.

Definition gap_in_frib : Container Z :=
  mkContainer [0; 77; 2] (Some (get_events 0 2))
              (Some (Some (delete (evt_key 2 "_1903") (frib_events 1 3)))).

(** The renames performed before the one that fails, and what they leave. *)
Definition gap_in_get_done : list (string * string) :=
  [("evt5_data", "evt0_data"); ("evt5_header", "evt0_header");
   ("evt6_data", "evt1_data")].

Definition gap_in_get_left : Group Z :=
  (run_renames (delete (evt_key 6 "_header") (get_events 5 7)) gap_in_get_done).2.

Definition gap_in_frib_done : list (string * string) :=
  [("evt1_1903", "evt0_1903"); ("evt1_header", "evt0_header")].

Definition gap_in_frib_left : Group Z :=
  (run_renames (delete (evt_key 2 "_1903") (frib_events 1 3)) gap_in_frib_done).2.

(** Headers for the events 0, 1, ... with the given timestamps: a header
    of the get group is [event, _, timestamp], one of frib/evt is
    [event, timestamp]. *)
Definition get_headers (timestamps : list Z) : Group Header :=
  list_to_map
    (imap (λ i ts, (evt_key (Z.of_nat i) "_header", [Z.of_nat i; 0; ts]))
          timestamps).

Definition frib_headers (timestamps : list Z) : Group Header :=
  list_to_map
    (imap (λ i ts, (evt_key (Z.of_nat i) "_header", [Z.of_nat i; ts]))
          timestamps).

(** Offsets 100, 101, 103 and then an index that has no frib header:
    index 2 is 3 above the reference. *)
Definition drift_file : Container Header :=
  mkContainer [0; 0; 4] (Some (get_headers [100; 101; 103; 110]))
              (Some (Some (frib_headers [0; 0; 0]))).

(** A constant offset of 100. *)
Definition synchronized_file : Container Header :=
  mkContainer [0; 0; 3] (Some (get_headers [100; 105; 110]))
              (Some (Some (frib_headers [0; 5; 10]))).

(** Offsets 100, 50, 100: index 1 is 50 below the reference. *)
Definition negative_drift_file : Container Header :=
  mkContainer [0; 0; 3] (Some (get_headers [100; 50; 100]))
              (Some (Some (frib_headers [0; 0; 0]))).

(** The timestamps of the get group of [drift_file], as a function of the
    index. *)
Definition drift_get (n : Z) : Z :=
  if decide (n = 0) then 100 else if decide (n = 1) then 101 else 103.

(** The timestamps of [synchronized_file]. *)
Definition synchronized_get (n : Z) : Z := 100 + 5 * n.

Definition synchronized_frib (n : Z) : Z := 5 * n.

(** ** The helper that nothing calls *)

(** Lines 25-29: the data entries only, and [range(event_min, event_max)]
    without its upper end. *)
Definition fix_get_event_numbers {D} (data : handle) (event_min event_max : Z)
    : M D unit :=
  for_ (enumerate (range event_min event_max))
       (λ ie : Z * Z,
          let '(idx, event) := ie in
          move data (evt_key event "_data") (evt_key idx "_data")).

(** Its renames, as a list. *)
Definition data_schedule (event_min event_max : Z) : list (string * string) :=
  (λ ie : Z * Z, (evt_key ie.2 "_data", evt_key ie.1 "_data"))
    <$> enumerate (range event_min event_max).

(** The pattern of [data_schedule]: entry [a + k] goes to [k], for [k]
    from 0 up, under one suffix. *)
Definition one_schedule (a : Z) (s : string) (n : Z) : list (string * string) :=
  (λ k : Z, (evt_key (a + k) s, evt_key k s)) <$> seqZ 0 n.

(** ** The driver *)

Fixpoint zeros (k : nat) : string :=
  match k with
  | O => ""
  | S k' => String "0" (zeros k')
  end.

(** Digits padded with zeros on the left up to a width; digits that are
    wider are kept as they are. *)
Definition zero_fill (width : nat) (digits : string) : string :=
  zeros (width - String.length digits) +:+ digits.

(** [f"{run:04d}"]: the width of 4 counts the minus sign of a negative
    number, and the zeros go between the sign and the digits. *)
Definition format_04d (run : Z) : string :=
  match run with
  | Zneg p => "-" +:+ zero_fill 3 (pretty (Zpos p))
  | _ => zero_fill 4 (pretty run)
  end.

(** The digits that are left when the zeros in front are taken away. *)
Fixpoint strip_zeros (s : string) : string :=
  match s with
  | String c s' => if decide (c = "0"%char) then strip_zeros s' else s
  | "" => ""
  end.

(** [f"run_{run:04d}.h5"]. *)
Definition run_file_name (run : Z) : string :=
  "run_" +:+ format_04d run +:+ ".h5".

(** What a path of the directory leads to: a run file, or a file that h5py
    cannot open. *)
Inductive content :=
  | RunFile (c : Container Header)
  | NotHDF5.

(** The lines of the driver, and the lines of the two functions it calls. *)
Inductive line :=
  | LineRunning
  | LineDirectory (directory : string)
  | LineFirstRun (run : Z)
  | LineLastRun (run : Z)
  | LineOf (msg : message).

Section Driver.

(** [pathlib] is taken as it is: paths are of some type, [joinpath] is the
    operator [/] with a name on its right, [path_str] is the text an
    f-string shows for a path and [path_of] is [Path(directory)]. *)
Context {Path : Type} `{Countable Path}.
Variable joinpath : Path → string → Path.
Variable path_str : Path → string.
Variable path_of : string → Path.

(** Lines 7-22. *)
Definition make_run_path (directory : Path) (run : Z) : Path :=
  joinpath directory (run_file_name run).

(** The directory and the terminal. *)
Record Disk := mkDisk {
  files : gmap Path content;
  console : list line
}.

(** [h5.File(path, mode)] and the body of the function that opened the
    file.  [banner] is the line the function prints before it opens the
    file.  What the body has renamed or written is in the file afterwards,
    also when it raises; a file opened with mode ["r"] stays as it is. *)
Definition with_file (writable : bool) (path : Path) (banner : message)
    (body : M Header unit) (d : Disk) : result unit * Disk :=
  match files d !! path with
  | Some (RunFile c) =>
      let '(r, w) := body (mkWorld c []) in
      (r,
       mkDisk (if writable then <[path := RunFile (file w)]> (files d)
               else files d)
              (console d ++ (LineOf <$> stdout w)))
  | Some NotHDF5 =>
      (Raise (OtherError "OSError"),
       mkDisk (files d) (console d ++ [LineOf banner]))
  | None =>
      (Raise (OtherError "FileNotFoundError"),
       mkDisk (files d) (console d ++ [LineOf banner]))
  end.

(** Lines 164-169, the loop of [main]. *)
Fixpoint main_loop (dir_path : Path) (runs : list Z) (d : Disk)
    : result unit * Disk :=
  match runs with
  | [] => (OK tt, d)
  | run :: runs' =>
      let path := make_run_path dir_path run in
      match files d !! path with
      | None => main_loop dir_path runs' d
      | Some _ =>
          match with_file true path (MsgFixingRun (path_str path))
                  (fix_event_numbers h5_getitem (path_str path)) d with
          | (Raise e, d1) => (Raise e, d1)
          | (OK _, d1) =>
              match with_file false path MsgCheckingTimestamps
                      (check_timestamps (path_str path)) d1 with
              | (Raise e, d2) => (Raise e, d2)
              | (OK _, d2) => main_loop dir_path runs' d2
              end
          end
      end
  end.

(** Lines 151-169, on arguments that click has parsed. *)
Definition main (directory : string) (run_min run_max : Z) (d : Disk)
    : result unit * Disk :=
  main_loop (path_of directory) (range run_min (run_max + 1))
    (mkDisk (files d)
            (console d ++ [LineRunning; LineDirectory directory;
                           LineFirstRun run_min; LineLastRun run_max])).

End Driver.

(** ** What a program keeps, up to a relation *)

(** [m] takes a file to a file that is in relation [R] with it, whether it
    returns or raises. *)
Definition keeps {D A} (R : Container D → Container D → Prop) (m : M D A)
    : Prop :=
  ∀ w, R (file w) (file (m w).2).

(** The datasets of two groups are the same, up to their order: none is
    lost, none is there twice, none is altered. *)
Definition same_datasets {D} (g g' : Group D) : Prop :=
  (map_to_list g).*2 ≡ₚ (map_to_list g').*2.

(** The same for the two groups of a file, each being there or not in
    both. *)
Definition same_file_datasets {D} (c c' : Container D) : Prop :=
  option_Forall2 same_datasets (get c) (get c')
  ∧ option_Forall2 (option_Forall2 same_datasets) (frib c) (frib c').

(** Every entry of the get group whose name is not [evt{n}_data] or
    [evt{n}_header], and every entry of frib/evt whose name is not
    [evt{n}_1903] or [evt{n}_header], is the same in both files. *)
Definition same_other_entries {D} (c c' : Container D) : Prop :=
  (∀ key : string,
     (∀ n, key ≠ evt_key n "_data" ∧ key ≠ evt_key n "_header") →
     (get c ≫= (.!! key)) = (get c' ≫= (.!! key)))
  ∧ (∀ key : string,
       (∀ n, key ≠ evt_key n "_1903" ∧ key ≠ evt_key n "_header") →
       (deref HFribEvt c ≫= (.!! key)) = (deref HFribEvt c' ≫= (.!! key))).

(** A file whose metadata is the wrong way round: first event 5, last
    event 3. *)
Definition reversed_file : Container Z :=
  mkContainer [5; 77; 3] (Some (get_events 5 7)) (Some (Some (frib_events 1 3))).

(** A file with both defects: events 5 to 7 in the get group, events 1 to
    3 in frib/evt, metadata [5, _, 7]. *)
Definition both_defects_file : Container Z :=
  mkContainer [5; 77; 7] (Some (get_events 5 7)) (Some (Some (frib_events 1 3))).

(** [drift_file] with another header for its last event, event 4, which is
    the event_max of its metadata. *)
Definition drift_file_last : Container Header :=
  mkContainer [0; 0; 4]
    (Some (<[evt_key 4 "_header" := [4; 0; 999]]>
             (get_headers [100; 101; 103; 110])))
    (Some (Some (frib_headers [0; 0; 0]))).

(** A get stream in step with itself and no frib group. *)
Definition no_frib_file : Container Header :=
  mkContainer [0; 0; 2] (Some (get_headers [100; 105; 110])) None.

(** Metadata that says 0 to 4, and get headers for the events 0 and 1
    only. *)
Definition short_get_file : Container Header :=
  mkContainer [0; 0; 4] (Some (get_headers [100; 101]))
              (Some (Some (frib_headers [0; 0; 0]))).

(** Paths as lists of parts, for the examples. *)
Definition parts_join (directory : list string) (name : string) : list string :=
  directory ++ [name].

Definition parts_str (path : list string) : string :=
  String.concat "/" path.

Definition parts_of (directory : string) : list string := [directory].

(** A directory with run 2, which has no frib group, and run 3; there is
    no run 1. *)
Definition data_disk : Disk (Path := list string) :=
  mkDisk (<[ ["data"; "run_0002.h5"] := RunFile no_frib_file ]>
            (<[ ["data"; "run_0003.h5"] := RunFile synchronized_file ]>
               (<[ ["data"; "notes.txt"] := NotHDF5 ]> ∅)))
         [].

(** * Properties *)

(** ** Link names are told apart *)

Lemma list_ascii_app (s1 s2 : string) :
  Strings.String.list_ascii_of_string (s1 +:+ s2)
  = Strings.String.list_ascii_of_string s1 ++ Strings.String.list_ascii_of_string s2.
Proof. induction s1 as [|c s1 IH]; simpl; [done|by rewrite IH]. Qed.

Lemma string_app_inj_r (s1 s2 suffix : string) :
  s1 +:+ suffix = s2 +:+ suffix → s1 = s2.
Proof.
  intros H. apply (f_equal Strings.String.list_ascii_of_string) in H.
  rewrite !list_ascii_app in H. apply app_inv_tail in H.
  rewrite <-(Strings.String.string_of_list_ascii_of_string s1),
          <-(Strings.String.string_of_list_ascii_of_string s2).
  by rewrite H.
Qed.

Lemma evt_key_inj (suffix : string) (n m : Z) :
  evt_key n suffix = evt_key m suffix → n = m.
Proof.
  unfold evt_key. intros H.
  apply (inj (String.app "evt")) in H.
  apply string_app_inj_r in H. by apply (inj pretty) in H.
Qed.

Lemma last_char_app (s suffix : string) (c : ascii) :
  last_char suffix = Some c → last_char (s +:+ suffix) = Some c.
Proof.
  unfold last_char. rewrite list_ascii_app, reverse_app.
  destruct (reverse (Strings.String.list_ascii_of_string suffix)); [done|]. by simpl.
Qed.

Lemma evt_key_suffix_ne (s1 s2 : string) (c1 c2 : ascii) (n m : Z) :
  last_char s1 = Some c1 → last_char s2 = Some c2 → c1 ≠ c2 →
  evt_key n s1 ≠ evt_key m s2.
Proof.
  intros H1 H2 Hne Heq. apply (f_equal last_char) in Heq.
  unfold evt_key in Heq.
  rewrite (last_char_app _ _ c1), (last_char_app _ _ c2) in Heq
    by by apply last_char_app.
  congruence.
Qed.

(** The name the script writes out in full is the one its f-string
    gives for event 0. *)
Lemma evt0_1903_key : "evt0_1903" = evt_key 0 "_1903".
Proof. vm_compute. reflexivity. Qed.

Lemma data_header_ne (n m : Z) : evt_key n "_data" ≠ evt_key m "_header".
Proof. by apply (evt_key_suffix_ne _ _ "a" "r")%char. Qed.

Lemma frib_header_ne (n m : Z) : evt_key n "_1903" ≠ evt_key m "_header".
Proof. by apply (evt_key_suffix_ne _ _ "3" "r")%char. Qed.

(** ** Renames on a group *)

Section Renames.
Context {D : Type}.
Implicit Types (g : Group D) (rs : list (string * string)).

Lemma h5_move_OK g (old_key new_key : string) (d : D) :
  g !! old_key = Some d → g !! new_key = None →
  h5_move g old_key new_key = OK (<[new_key := d]> (delete old_key g)).
Proof.
  intros Ho Hn. unfold h5_move.
  rewrite decide_False by congruence. by rewrite Ho, Hn.
Qed.

(** A move that returns either had the same name twice and did nothing,
    or renamed a link that was there to a name that was free. *)
Lemma h5_move_inv g (old_key new_key : string) g' :
  h5_move g old_key new_key = OK g' →
  (old_key = new_key ∧ g' = g)
  ∨ ∃ d, g !! old_key = Some d ∧ g !! new_key = None
         ∧ g' = <[new_key := d]> (delete old_key g).
Proof.
  unfold h5_move. case_decide as Hne; [intros [= <-]; by left|].
  destruct (g !! old_key) as [d|] eqn:Ho; [|done].
  destruct (g !! new_key) eqn:Hn; [done|].
  intros [= <-]. right. eauto.
Qed.

Lemma h5_move_inv_ne g (old_key new_key : string) g' :
  old_key ≠ new_key → h5_move g old_key new_key = OK g' →
  ∃ d, g !! old_key = Some d ∧ g !! new_key = None
       ∧ g' = <[new_key := d]> (delete old_key g).
Proof.
  intros Hne Hm. by destruct (h5_move_inv _ _ _ _ Hm) as [[? _]|?].
Qed.

Lemma h5_move_missing g (old_key new_key : string) :
  old_key ≠ new_key → g !! old_key = None →
  h5_move g old_key new_key = Raise (ValueError (SourceMissing old_key)).
Proof. intros Hne Ho. unfold h5_move. rewrite decide_False by done. by rewrite Ho. Qed.

(** Whatever [h5_move] raises is a [ValueError] about one of its two
    names. *)
Lemma h5_move_raises g (old_key new_key : string) (e : exn) :
  h5_move g old_key new_key = Raise e →
  e = ValueError (SourceMissing old_key) ∨ e = ValueError (DestExists new_key).
Proof.
  unfold h5_move. case_decide; [done|].
  destruct (g !! old_key); [|intros [= <-]; by left].
  destruct (g !! new_key); [intros [= <-]; by right|done].
Qed.

Lemma run_renames_app g rs1 rs2 :
  run_renames g (rs1 ++ rs2)
  = match run_renames g rs1 with
    | (OK _, g') => run_renames g' rs2
    | (Raise e, g') => (Raise e, g')
    end.
Proof.
  revert g. induction rs1 as [|[o n] rs1 IH]; intros g; simpl; [done|].
  destruct (h5_move g o n); [apply IH|done].
Qed.

Lemma run_renames_raises g rs (e : exn) g' :
  run_renames g rs = (Raise e, g') →
  ∃ key, e = ValueError (SourceMissing key) ∨ e = ValueError (DestExists key).
Proof.
  revert g. induction rs as [|[o n] rs IH]; intros g; simpl; [done|].
  destruct (h5_move g o n) as [g1|e1] eqn:Hm; [apply IH|].
  intros [= <- <-]. destruct (h5_move_raises _ _ _ _ Hm); eauto.
Qed.

(** A run of renames between different names that ends without an
    exception never moved a link onto a name that was taken. *)
Lemma run_renames_vacant g rs g' :
  Forall (λ r, r.1 ≠ r.2) rs →
  run_renames g rs = (OK tt, g') → targets_vacant g rs.
Proof.
  intros Hne. revert g.
  induction Hne as [|[o n] rs Hon Hne IH]; intros g; simpl; [done|].
  destruct (h5_move g o n) as [g1|e1] eqn:Hm; [|done].
  intros Hrun. destruct (h5_move_inv_ne _ _ _ _ Hon Hm) as (d & Ho & Hn & ->).
  split; [done|]. intros g2 [= <-]. by apply IH.
Qed.

(** A missing source after a prefix of the renames: the run stops
    there, with the group as the prefix left it. *)
Lemma run_renames_missing_source g rs1 (old_key new_key : string) rs2 g1 :
  old_key ≠ new_key →
  run_renames g rs1 = (OK tt, g1) → g1 !! old_key = None →
  run_renames g (rs1 ++ (old_key, new_key) :: rs2)
  = (Raise (ValueError (SourceMissing old_key)), g1).
Proof.
  intros Hne Hrun Ho. rewrite run_renames_app, Hrun. simpl.
  by rewrite h5_move_missing.
Qed.

(** *** Every rename of a schedule is between two different names *)

Lemma shift_schedule_distinct (a : Z) (s1 s2 : string) (n : Z) :
  a ≠ 0 → Forall (λ r, r.1 ≠ r.2) (shift_schedule a s1 s2 n).
Proof.
  intros Ha. unfold shift_schedule. apply Forall_flat_map, Forall_forall.
  intros k _. repeat constructor; simpl; intros E; apply evt_key_inj in E; lia.
Qed.

(** *** Shifting a block of entries down *)

Lemma shift_schedule_S (a : Z) (s1 s2 : string) (n : nat) :
  shift_schedule a s1 s2 (Z.of_nat (S n))
  = shift_schedule a s1 s2 (Z.of_nat n)
    ++ [(evt_key (a + Z.of_nat n) s1, evt_key (Z.of_nat n) s1);
        (evt_key (a + Z.of_nat n) s2, evt_key (Z.of_nat n) s2)].
Proof.
  unfold shift_schedule. rewrite seqZ_S, flat_map_app. simpl.
  by rewrite Z.add_0_l.
Qed.

(** Equal names under one suffix are equal numbers; names under the two
    suffixes of a schedule are never equal. *)
Ltac key_cases Hsep :=
  repeat match goal with
    | H : evt_key _ ?s = evt_key _ ?s |- _ => apply evt_key_inj in H
    | H : evt_key _ _ = evt_key _ _ |- _ =>
        first [ by destruct (Hsep _ _ H)
              | by destruct (Hsep _ _ (eq_sym H)) ]
    | H : evt_key ?x ?s ≠ evt_key ?x ?s |- _ => by destruct H
    | H : evt_key ?x ?s ≠ evt_key ?y ?s |- _ =>
        assert (x ≠ y) by (by intros ->); clear H
    end.

Lemma shift_schedule_runs (a : Z) (s1 s2 : string) (n : nat) g :
  (∀ x y, evt_key x s1 ≠ evt_key y s2) →
  0 < a ∨ a + Z.of_nat n ≤ 0 →
  (∀ k, 0 ≤ k < Z.of_nat n →
        is_Some (g !! evt_key (a + k) s1) ∧ is_Some (g !! evt_key (a + k) s2)) →
  (∀ k, 0 ≤ k < Z.of_nat n → ¬ (a ≤ k < a + Z.of_nat n) →
        g !! evt_key k s1 = None ∧ g !! evt_key k s2 = None) →
  ∃ g', run_renames g (shift_schedule a s1 s2 (Z.of_nat n)) = (OK tt, g')
        ∧ shifted a s1 (Z.of_nat n) g g'
        ∧ shifted a s2 (Z.of_nat n) g g'
        ∧ untouched a s1 s2 (Z.of_nat n) g g'.
Proof.
  intros Hsep. induction n as [|n IH]; intros Ha Hsrc Htgt.
  { exists g. split; [done|]. repeat split; intros; try lia; done. }
  destruct IH as (gn & Hrun & [Hs1 Hf1] & [Hs2 Hf2] & Hu).
  { lia. }
  { intros k Hk. apply Hsrc. lia. }
  { intros k Hk Hout. apply Htgt; lia. }
  (* the two renames of iteration [n] *)
  destruct (Hsrc (Z.of_nat n)) as [[d1 Hd1] [d2 Hd2]]; [lia|].
  assert (gn !! evt_key (a + Z.of_nat n) s1 = Some d1) as Ho1.
  { rewrite Hu; [done|]. intros k Hk. split; intros E; key_cases Hsep; lia. }
  assert (gn !! evt_key (a + Z.of_nat n) s2 = Some d2) as Ho2.
  { rewrite Hu; [done|]. intros k Hk. split; intros E; key_cases Hsep; lia. }
  assert (gn !! evt_key (Z.of_nat n) s1 = None
          ∧ gn !! evt_key (Z.of_nat n) s2 = None) as [Hn1 Hn2].
  { destruct (decide (a ≤ Z.of_nat n < a + Z.of_nat n)) as [Hin|Hout].
    - split; [apply Hf1|apply Hf2]; lia.
    - rewrite !Hu; [apply Htgt; lia|..];
        intros k Hk; split; intros E; key_cases Hsep; lia. }
  set (g1 := <[evt_key (Z.of_nat n) s1 := d1]>
               (delete (evt_key (a + Z.of_nat n) s1) gn)).
  set (g2 := <[evt_key (Z.of_nat n) s2 := d2]>
               (delete (evt_key (a + Z.of_nat n) s2) g1)).
  assert (∀ key, g2 !! key
            = if decide (key = evt_key (Z.of_nat n) s2) then Some d2
              else if decide (key = evt_key (a + Z.of_nat n) s2) then None
              else if decide (key = evt_key (Z.of_nat n) s1) then Some d1
              else if decide (key = evt_key (a + Z.of_nat n) s1) then None
              else gn !! key) as Hg2.
  { intros key. unfold g2, g1.
    rewrite lookup_insert, lookup_delete, lookup_insert, lookup_delete.
    repeat case_decide; congruence. }
  exists g2. split; [|repeat split].
  - rewrite shift_schedule_S, run_renames_app, Hrun. simpl.
    rewrite (h5_move_OK gn _ _ d1 Ho1 Hn1). fold g1.
    rewrite (h5_move_OK g1 _ _ d2).
    + done.
    + unfold g1. rewrite lookup_insert_ne, lookup_delete_ne; [done|..];
        intros E; key_cases Hsep.
    + unfold g1. rewrite lookup_insert_ne, lookup_delete_ne; [done|..];
        intros E; key_cases Hsep.
  - intros k Hk. rewrite Hg2.
    repeat case_decide; key_cases Hsep; subst;
      first [done | by rewrite ?Hd1, ?Hd2 | exfalso; lia | apply Hs1; lia].
  - intros k Hk Hout. rewrite Hg2.
    repeat case_decide; key_cases Hsep; subst;
      first [done | by rewrite ?Hd1, ?Hd2 | exfalso; lia | apply Hf1; lia].
  - intros k Hk. rewrite Hg2.
    repeat case_decide; key_cases Hsep; subst;
      first [done | by rewrite ?Hd1, ?Hd2 | exfalso; lia | apply Hs2; lia].
  - intros k Hk Hout. rewrite Hg2.
    repeat case_decide; key_cases Hsep; subst;
      first [done | by rewrite ?Hd1, ?Hd2 | exfalso; lia | apply Hf2; lia].
  - intros key Hkey. rewrite Hg2.
    destruct (Hkey (Z.of_nat n)) as [? ?]; [lia|].
    destruct (Hkey (a + Z.of_nat n)) as [? ?]; [lia|].
    rewrite !decide_False by done.
    apply Hu. intros k Hk. apply Hkey. lia.
Qed.

End Renames.

(** ** The monad, the handles and the loops *)

Section Programs.
Context {D : Type}.
Implicit Types (w : World D) (c : Container D) (g : Group D).

Lemma bind_run {A B} (m : M D A) (k : A → M D B) w :
  (m ≫= k) w
  = match m w with
    | (OK a, w') => k a w'
    | (Raise e, w') => (Raise e, w')
    end.
Proof. done. Qed.

Lemma print_bind {B} (msg : message) (k : unit → M D B) w :
  (print msg ≫= k) w = k tt (mkWorld (file w) (stdout w ++ [msg])).
Proof. done. Qed.

Lemma attempt_open_bind {B} (h : handle) (k : result handle → M D B) w :
  (attempt (open_group h) ≫= k) w
  = match deref h (file w) with
    | Some _ => k (OK h) w
    | None => k (Raise (KeyError (handle_name h))) w
    end.
Proof.
  rewrite bind_run. unfold attempt, open_group.
  by destruct (deref h (file w)).
Qed.

Lemma meta_get_bind {B} (i : nat) (k : Z → M D B) w (v : Z) :
  meta_data (file w) !! i = Some v → (meta_get i ≫= k) w = k v w.
Proof. intros Hv. rewrite bind_run. unfold meta_get. by rewrite Hv. Qed.

Lemma open_group_bind {B} (h : handle) (k : handle → M D B) w g :
  deref h (file w) = Some g → (open_group h ≫= k) w = k h w.
Proof. intros Hg. rewrite bind_run. unfold open_group. by rewrite Hg. Qed.

Lemma len_keys_bind {B} (h : handle) (k : nat → M D B) w g :
  deref h (file w) = Some g → (len_keys h ≫= k) w = k (size g) w.
Proof. intros Hg. rewrite bind_run. unfold len_keys. by rewrite Hg. Qed.

Lemma read_bind {B} getitem (h : handle) (key : string) (k : D → M D B) w g :
  deref h (file w) = Some g →
  (read getitem h key ≫= k) w
  = match getitem g key with
    | OK d => k d w
    | Raise e => (Raise e, w)
    end.
Proof. intros Hg. rewrite bind_run. unfold read. by rewrite Hg. Qed.

Lemma store_deref (h : handle) c g : deref h c = Some g → store h g c = c.
Proof.
  destruct c as [m gg fg], h; simpl; [by intros ->|].
  destruct fg as [[?|]|]; naive_solver.
Qed.

Lemma deref_store (h : handle) c g : deref h (store h g c) = Some g.
Proof. by destruct h. Qed.

Lemma store_store (h : handle) c g g' :
  store h g' (store h g c) = store h g' c.
Proof. by destruct h. Qed.

Lemma for_app {A} (xs ys : list A) (body : A → M D unit) w :
  for_ (xs ++ ys) body w = (for_ xs body ;; for_ ys body) w.
Proof.
  revert w. induction xs as [|x xs IH]; intros w; simpl; [done|].
  rewrite !bind_run. destruct (body x w) as [[[]|e] w1]; [|done].
  by rewrite IH.
Qed.

(** A loop whose body is two renames on one group performs the renames
    of its schedule and stops at the first that raises; nothing else in
    the world changes. *)
Lemma for_two_moves {A} (h : handle) (o1 n1 o2 n2 : A → string)
    (body : A → M D unit) (xs : list A) :
  (∀ x w, body x w = (move h (o1 x) (n1 x) ;; move h (o2 x) (n2 x)) w) →
  ∀ w g, deref h (file w) = Some g →
    for_ xs body w
    = let '(r, g') :=
        run_renames g (flat_map (λ x, [(o1 x, n1 x); (o2 x, n2 x)]) xs) in
      (r, mkWorld (store h g' (file w)) (stdout w)).
Proof.
  intros Hbody. induction xs as [|x xs IH]; intros w g Hg; simpl.
  { rewrite (store_deref _ _ _ Hg). by destruct w. }
  rewrite bind_run, Hbody, bind_run. unfold move at 1. rewrite Hg.
  destruct (h5_move g (o1 x) (n1 x)) as [g1|e1].
  2: { rewrite (store_deref _ _ _ Hg). by destruct w. }
  unfold move. simpl. rewrite deref_store.
  destruct (h5_move g1 (o2 x) (n2 x)) as [g2|e2]; simpl.
  2: done.
  rewrite (IH _ g2) by apply deref_store. simpl.
  destruct (run_renames g2 _) as [r g']. by rewrite !store_store.
Qed.

Lemma enumerate_seqZ (a n : Z) :
  enumerate (seqZ a n) = (λ k, (k, a + k)) <$> seqZ 0 n.
Proof.
  unfold enumerate. rewrite length_seqZ.
  destruct (decide (n ≤ 0)) as [Hn|Hn].
  { by rewrite !seqZ_nil by lia. }
  rewrite Z2Nat.id by lia.
  replace (seqZ a n) with (Z.add a <$> seqZ 0 n)
    by (rewrite fmap_add_seqZ; f_equal; lia).
  generalize (seqZ 0 n). intros l. induction l as [|x l IH]; [done|].
  rewrite !fmap_cons. simpl. by rewrite IH.
Qed.

Lemma get_schedule_shift (event_min event_max : Z) :
  get_schedule event_min event_max
  = shift_schedule event_min "_data" "_header" (event_max + 1 - event_min).
Proof.
  unfold get_schedule, shift_schedule, range. rewrite enumerate_seqZ.
  generalize (seqZ 0 (event_max + 1 - event_min)).
  intros l. induction l as [|k l IH]; [done|].
  rewrite fmap_cons. simpl. by rewrite IH.
Qed.

Lemma frib_schedule_shift (event_range : Z) :
  frib_schedule event_range
  = shift_schedule 1 "_1903" "_header" (event_range + 1).
Proof.
  unfold frib_schedule, shift_schedule, range. rewrite Z.sub_0_r.
  generalize (seqZ 0 (event_range + 1)).
  intros l. induction l as [|k l IH]; [done|]. simpl.
  by rewrite IH, (Z.add_comm k 1).
Qed.

Lemma get_loop_run (event_min event_max : Z) w g :
  get (file w) = Some g →
  for_ (enumerate (range event_min (event_max + 1))) (get_body HGet) w
  = let '(r, g') := run_renames g (get_schedule event_min event_max) in
    (r, mkWorld (store HGet g' (file w)) (stdout w)).
Proof.
  intros Hg. unfold get_schedule.
  apply (for_two_moves HGet (λ ie, evt_key ie.2 "_data")
           (λ ie, evt_key ie.1 "_data") (λ ie, evt_key ie.2 "_header")
           (λ ie, evt_key ie.1 "_header")); [|done].
  by intros [idx event] w'.
Qed.

Lemma frib_loop_run (event_range : Z) w g :
  deref HFribEvt (file w) = Some g →
  for_ (range 0 (event_range + 1)) (frib_body HFribEvt) w
  = let '(r, g') := run_renames g (frib_schedule event_range) in
    (r, mkWorld (store HFribEvt g' (file w)) (stdout w)).
Proof.
  intros Hg. unfold frib_schedule.
  by apply (for_two_moves HFribEvt (λ e, evt_key (e + 1) "_1903")
              (λ e, evt_key e "_1903") (λ e, evt_key (e + 1) "_header")
              (λ e, evt_key e "_header")).
Qed.

End Programs.

(** ** What a program leaves alone *)

Section Frame.
Context {D X : Type}.
Implicit Types (w : World D) (f : Container D → X).

Lemma preserves_mret {A} f (a : A) : preserves f (mret a).
Proof. by intros w. Qed.

Lemma preserves_bind {A B} f (m : M D A) (k : A → M D B) :
  preserves f m → (∀ a, preserves f (k a)) → preserves f (m ≫= k).
Proof.
  intros Hm Hk w. rewrite bind_run. specialize (Hm w).
  destruct (m w) as [[a|e] w1]; simpl in *; [|done].
  by rewrite Hk.
Qed.

Lemma preserves_print f (msg : message) : preserves f (print msg).
Proof. by intros w. Qed.

Lemma preserves_meta_get f (i : nat) : preserves f (meta_get i).
Proof. intros w. unfold meta_get. by destruct (_ !! i). Qed.

Lemma preserves_len_keys f (h : handle) : preserves f (len_keys h).
Proof. intros w. unfold len_keys. by destruct (deref _ _). Qed.

Lemma preserves_read f getitem (h : handle) (key : string) :
  preserves f (read getitem h key).
Proof. intros w. unfold read. by destruct (deref _ _). Qed.

Lemma preserves_attempt {A} f (m : M D A) :
  preserves f m → preserves f (attempt m).
Proof. intros Hm w. unfold attempt. specialize (Hm w). by destruct (m w). Qed.

Lemma preserves_for {A} f (xs : list A) (body : A → M D unit) :
  (∀ x, preserves f (body x)) → preserves f (for_ xs body).
Proof.
  intros Hbody. induction xs as [|x xs IH]; simpl.
  - apply preserves_mret.
  - apply preserves_bind; auto.
Qed.

(** [file[...]] hands back the handle it was asked for. *)
Lemma preserves_open_bind {B} f (h : handle) (k : handle → M D B) :
  preserves f (k h) → preserves f (open_group h ≫= k).
Proof.
  intros Hk w. rewrite bind_run. unfold open_group.
  destruct (deref h (file w)); [apply Hk|done].
Qed.

Lemma preserves_attempt_open_bind {B} f (h : handle)
    (k : result handle → M D B) :
  preserves f (k (OK h)) → (∀ e, preserves f (k (Raise e))) →
  preserves f (attempt (open_group h) ≫= k).
Proof.
  intros Hk He w. rewrite bind_run. unfold attempt, open_group.
  destruct (deref h (file w)); [apply Hk|apply He].
Qed.

Lemma preserves_move f (h : handle) (old_key new_key : string) :
  (∀ g c, f (store h g c) = f c) → preserves f (move h old_key new_key).
Proof.
  intros Hf w. unfold move. destruct (deref h (file w)) as [g|]; [|done].
  destruct (h5_move g old_key new_key); [apply Hf|done].
Qed.

Lemma preserves_meta_set f (i : nat) (v : Z) :
  (∀ l c, f (mkContainer l (get c) (frib c)) = f c) →
  preserves f (meta_set i v).
Proof. intros Hf w. unfold meta_set. case_decide; [apply Hf|done]. Qed.

End Frame.

Section RepairFrame.
Context {D : Type} (getitem : Group D → string → result D).

(** The repair of the get group never touches [frib]. *)
Lemma get_repair_frib (event_min event_max : Z) :
  preserves (D := D) frib (get_repair event_min event_max).
Proof.
  unfold get_repair. apply preserves_bind; [apply preserves_print|intros _].
  case_decide; [|apply preserves_mret].
  apply preserves_bind; [apply preserves_print|intros _].
  apply preserves_open_bind.
  apply preserves_bind.
  { apply preserves_for. intros [idx event]. unfold get_body.
    apply preserves_bind; [|intros _]; by apply preserves_move. }
  intros _. apply preserves_bind; [by apply preserves_meta_set|intros _].
  apply preserves_bind; [by apply preserves_meta_set|intros _].
  apply preserves_print.
Qed.

(** The repair of the frib group touches nothing but [frib]. *)
Lemma frib_repair_frame {X} (f : Container D → X) (path : string)
    (event_range : Z) :
  (∀ g c, f (store HFribEvt g c) = f c) →
  preserves f (frib_repair getitem path event_range).
Proof.
  intros Hf. unfold frib_repair.
  apply preserves_bind; [apply preserves_print|intros _].
  apply preserves_attempt_open_bind; [|intros e; apply preserves_print].
  apply preserves_bind; [apply preserves_len_keys|intros n].
  case_decide; [apply preserves_print|].
  apply preserves_bind.
  { apply preserves_attempt. unfold frib_probe.
    repeat (apply preserves_bind; [|intros ?]);
      first [apply preserves_read | apply preserves_print]. }
  intros [[]|e]; [apply preserves_mret|].
  unfold frib_shift.
  apply preserves_bind; [apply preserves_print|intros _].
  apply preserves_bind; [|intros _; apply preserves_print].
  apply preserves_for. intros event. unfold frib_body.
  apply preserves_bind; [|intros _]; by apply preserves_move.
Qed.

End RepairFrame.

(** ** The stages of the repair, run *)

Section Stages.
Context {D : Type} (getitem : Group D → string → result D).
Implicit Types (w : World D) (c : Container D) (g : Group D).

Lemma shift_schedule_nonpos (a : Z) (s1 s2 : string) (n : Z) :
  n ≤ 0 → shift_schedule a s1 s2 n = [].
Proof. intros Hn. unfold shift_schedule. by rewrite seqZ_nil. Qed.

(** [shift_schedule_runs] for a count that is an integer. *)
Lemma shift_schedule_runs_Z (a : Z) (s1 s2 : string) (n : Z) g :
  (∀ x y, evt_key x s1 ≠ evt_key y s2) →
  0 < a ∨ a + n ≤ 0 →
  (∀ k, 0 ≤ k < n →
        is_Some (g !! evt_key (a + k) s1) ∧ is_Some (g !! evt_key (a + k) s2)) →
  (∀ k, 0 ≤ k < n → ¬ (a ≤ k < a + n) →
        g !! evt_key k s1 = None ∧ g !! evt_key k s2 = None) →
  ∃ g', run_renames g (shift_schedule a s1 s2 n) = (OK tt, g')
        ∧ shifted a s1 n g g' ∧ shifted a s2 n g g'
        ∧ untouched a s1 s2 n g g'.
Proof.
  intros Hsep Ha Hsrc Htgt. destruct (decide (n ≤ 0)) as [Hn|Hn].
  - exists g. rewrite shift_schedule_nonpos by done.
    split; [done|]. repeat split; intros; try lia; done.
  - rewrite <-(Z2Nat.id n) in * by lia. by apply shift_schedule_runs.
Qed.

Lemma fix_event_numbers_run (path : string) c (out : list message)
    (event_min event_max : Z) :
  meta_data c !! 0%nat = Some event_min →
  meta_data c !! 2%nat = Some event_max →
  fix_event_numbers getitem path (mkWorld c out)
  = (get_repair event_min event_max ;;
     frib_repair getitem path (event_max - event_min))
      (mkWorld c (out ++ [MsgFixingRun path])).
Proof.
  intros H0 H2. unfold fix_event_numbers.
  rewrite bind_run. simpl. rewrite bind_run. unfold meta_get at 1. simpl.
  rewrite H0, bind_run. unfold meta_get. simpl. by rewrite H2.
Qed.

Lemma fix_event_numbers_short (path : string) c (out : list message)
    (event_min : Z) :
  meta_data c !! 0%nat = Some event_min →
  meta_data c !! 2%nat = None →
  fix_event_numbers getitem path (mkWorld c out)
  = (Raise (IndexError 2), mkWorld c (out ++ [MsgFixingRun path])).
Proof.
  intros H0 H2. unfold fix_event_numbers.
  rewrite bind_run. simpl. rewrite bind_run. unfold meta_get at 1. simpl.
  rewrite H0, bind_run. unfold meta_get. simpl. by rewrite H2.
Qed.

Lemma get_repair_skip (event_max : Z) w :
  get_repair 0 event_max w
  = (OK tt, mkWorld (file w) (stdout w ++ [MsgCheckingGet])).
Proof. done. Qed.

(** The offset repair on a file with a get group and a metadata record
    of three entries or more: the renames of the schedule, then the two
    writes, or the exception of the rename that failed. *)
Lemma get_repair_run (event_min event_max : Z) c (out : list message) g :
  event_min ≠ 0 → get c = Some g → (2 < length (meta_data c))%nat →
  get_repair event_min event_max (mkWorld c out)
  = match run_renames g (get_schedule event_min event_max) with
    | (OK _, g') =>
        (OK tt,
         mkWorld (mkContainer
                    (<[2%nat := event_max - event_min]>
                       (<[0%nat := 0]> (meta_data c)))
                    (Some g') (frib c))
                 (out ++ [MsgCheckingGet; MsgGetOffsetDetected; MsgGetRepaired]))
    | (Raise e, g') =>
        (Raise e,
         mkWorld (mkContainer (meta_data c) (Some g') (frib c))
                 (out ++ [MsgCheckingGet; MsgGetOffsetDetected]))
    end.
Proof.
  intros Hmin Hg Hlen. unfold get_repair.
  rewrite bind_run. simpl. rewrite decide_True by done.
  rewrite bind_run. simpl. rewrite bind_run. unfold open_group. simpl.
  rewrite Hg, bind_run, (get_loop_run _ _ _ g) by done. simpl.
  rewrite <-app_assoc. simpl.
  destruct (run_renames g _) as [[[]|e] g']; [|done].
  rewrite bind_run. unfold meta_set at 1. simpl.
  rewrite decide_True by lia.
  rewrite bind_run. unfold meta_set. simpl.
  rewrite decide_True by (rewrite length_insert; lia).
  unfold print. simpl. by rewrite <-app_assoc.
Qed.

End Stages.

(** ** The run files of the examples *)

(** What [stream_events] holds under each name. *)
Lemma stream_events_lookup (s1 s2 : string) (first last n : Z) :
  (∀ x y, evt_key x s1 ≠ evt_key y s2) →
  stream_events s1 s2 first last !! evt_key n s1
  = (if decide (first ≤ n ≤ last) then Some n else None)
  ∧ stream_events s1 s2 first last !! evt_key n s2
    = (if decide (first ≤ n ≤ last) then Some (1000 + n) else None).
Proof.
  intros Hsep. unfold stream_events.
  assert (∀ l : list Z,
            list_to_map (M := Group Z)
              (flat_map (λ n, [(evt_key n s1, n); (evt_key n s2, 1000 + n)]) l)
              !! evt_key n s1
            = (if decide (n ∈ l) then Some n else None)
            ∧ list_to_map (M := Group Z)
                (flat_map (λ n, [(evt_key n s1, n); (evt_key n s2, 1000 + n)]) l)
                !! evt_key n s2
              = (if decide (n ∈ l) then Some (1000 + n) else None)) as Hl.
  { induction l as [|k l [IH1 IH2]]; [done|]. simpl.
    rewrite !lookup_insert, IH1, IH2.
    split; repeat case_decide;
      repeat match goal with
        | H : evt_key _ s1 = evt_key _ s2 |- _ => by destruct (Hsep _ _ H)
        | H : evt_key _ s2 = evt_key _ s1 |- _ => by destruct (Hsep _ _ (eq_sym H))
        | H : evt_key _ ?s = evt_key _ ?s |- _ =>
            let E := fresh in
            pose proof (evt_key_inj _ _ _ H) as E; clear H; subst
        end;
      try done;
      repeat match goal with
        | H : _ ∈ _ :: _ |- _ => apply elem_of_cons in H
        | H : ¬ (_ ∈ _ :: _) |- _ => rewrite elem_of_cons in H
        end;
      exfalso; intuition (subst; congruence). }
  destruct (Hl (seqZ first (last + 1 - first))) as [-> ->].
  split; repeat case_decide; try done;
    match goal with H : _ |- _ => rewrite elem_of_seqZ in H; lia end.
Qed.

(** ** The repair of the frib stream, run *)

Section FribStage.
Context {D : Type} (getitem : Group D → string → result D).
Implicit Types (w : World D) (c : Container D) (data : Group D).

Lemma frib_repair_absent (path : string) (event_range : Z) w :
  deref HFribEvt (file w) = None →
  frib_repair getitem path event_range w
  = (OK tt, mkWorld (file w) (stdout w ++ [MsgCheckingFrib; MsgNoFribData path])).
Proof.
  intros Hd. unfold frib_repair.
  rewrite print_bind, attempt_open_bind. cbn [file stdout]. rewrite Hd.
  unfold print. cbn [file stdout]. by rewrite <-app_assoc.
Qed.

Lemma frib_repair_present (path : string) (event_range : Z) w data :
  deref HFribEvt (file w) = Some data →
  frib_repair getitem path event_range w
  = (if decide (size data = 0%nat) then print (MsgNoFribData path)
     else
       probed ← attempt (frib_probe getitem path HFribEvt event_range) ;
       match probed with
       | OK _ => mret tt
       | Raise _ => frib_shift path HFribEvt event_range
       end)
      (mkWorld (file w) (stdout w ++ [MsgCheckingFrib])).
Proof.
  intros Hd. unfold frib_repair.
  rewrite print_bind, attempt_open_bind. cbn [file stdout]. rewrite Hd.
  by rewrite (len_keys_bind _ _ _ data).
Qed.

Lemma frib_repair_empty (path : string) (event_range : Z) w data :
  deref HFribEvt (file w) = Some data → size data = 0%nat →
  frib_repair getitem path event_range w
  = (OK tt, mkWorld (file w) (stdout w ++ [MsgCheckingFrib; MsgNoFribData path])).
Proof.
  intros Hd Hsize. rewrite (frib_repair_present _ _ _ data Hd).
  rewrite decide_True by done. unfold print. cbn [file stdout].
  by rewrite <-app_assoc.
Qed.

(** Both entries open: the stream is left as it is. *)
Lemma frib_repair_skip (path : string) (event_range : Z) w data (d0 d1 : D) :
  deref HFribEvt (file w) = Some data → size data ≠ 0%nat →
  getitem data "evt0_1903" = OK d0 →
  getitem data (evt_key event_range "_1903") = OK d1 →
  frib_repair getitem path event_range w
  = (OK tt,
     mkWorld (file w)
             (stdout w ++ [MsgCheckingFrib; MsgStartOk path; MsgEndOk path])).
Proof.
  intros Hd Hsize H0 H1. rewrite (frib_repair_present _ _ _ data Hd).
  rewrite decide_False by done. rewrite bind_run.
  unfold attempt, frib_probe.
  rewrite (read_bind _ _ _ _ _ data), H0 by done.
  rewrite print_bind, (read_bind _ _ _ _ _ data), H1 by done.
  unfold print. cbn [file stdout]. by rewrite <-!app_assoc.
Qed.

(** The first entry does not open: the shift follows. *)
Lemma frib_repair_start_fails (path : string) (event_range : Z) w data
    (e : exn) :
  deref HFribEvt (file w) = Some data → size data ≠ 0%nat →
  getitem data "evt0_1903" = Raise e →
  frib_repair getitem path event_range w
  = frib_shift path HFribEvt event_range
      (mkWorld (file w) (stdout w ++ [MsgCheckingFrib])).
Proof.
  intros Hd Hsize H0. rewrite (frib_repair_present _ _ _ data Hd).
  rewrite decide_False by done. rewrite bind_run.
  unfold attempt, frib_probe.
  by rewrite (read_bind _ _ _ _ _ data), H0 by done.
Qed.

(** The first entry opens and the last does not: the shift follows. *)
Lemma frib_repair_end_fails (path : string) (event_range : Z) w data
    (d0 : D) (e : exn) :
  deref HFribEvt (file w) = Some data → size data ≠ 0%nat →
  getitem data "evt0_1903" = OK d0 →
  getitem data (evt_key event_range "_1903") = Raise e →
  frib_repair getitem path event_range w
  = frib_shift path HFribEvt event_range
      (mkWorld (file w) (stdout w ++ [MsgCheckingFrib; MsgStartOk path])).
Proof.
  intros Hd Hsize H0 H1. rewrite (frib_repair_present _ _ _ data Hd).
  rewrite decide_False by done. rewrite bind_run.
  unfold attempt, frib_probe.
  rewrite (read_bind _ _ _ _ _ data), H0 by done.
  rewrite print_bind, (read_bind _ _ _ _ _ data), H1 by done.
  cbn [file stdout]. by rewrite <-!app_assoc.
Qed.

(** Either way the probe fails, the shift follows, from a world that
    has printed at most that the start looks fine. *)
Lemma frib_repair_probe_fails (path : string) (event_range : Z) w data
    (e : exn) :
  deref HFribEvt (file w) = Some data → size data ≠ 0%nat →
  getitem data "evt0_1903" = Raise e
    ∨ (∃ d0, getitem data "evt0_1903" = OK d0
             ∧ getitem data (evt_key event_range "_1903") = Raise e) →
  ∃ seen : list message,
    (seen = [] ∨ seen = [MsgStartOk path])
    ∧ frib_repair getitem path event_range w
      = frib_shift path HFribEvt event_range
          (mkWorld (file w) (stdout w ++ MsgCheckingFrib :: seen)).
Proof.
  intros Hd Hsize [H0|(d0 & H0 & H1)].
  - exists []. split; [by left|].
    by apply (frib_repair_start_fails _ _ _ data e).
  - exists [MsgStartOk path]. split; [by right|].
    by apply (frib_repair_end_fails _ _ _ data d0 e).
Qed.

Lemma frib_shift_run (path : string) (event_range : Z) w data :
  deref HFribEvt (file w) = Some data →
  frib_shift path HFribEvt event_range w
  = match run_renames data (frib_schedule event_range) with
    | (OK _, data') =>
        (OK tt,
         mkWorld (store HFribEvt data' (file w))
                 (stdout w ++ [MsgFribOffsetDetected; MsgRunFixed path]))
    | (Raise e, data') =>
        (Raise e,
         mkWorld (store HFribEvt data' (file w))
                 (stdout w ++ [MsgFribOffsetDetected]))
    end.
Proof.
  intros Hd. unfold frib_shift.
  rewrite print_bind, bind_run, (frib_loop_run _ _ data) by done.
  cbn [file stdout].
  destruct (run_renames data _) as [[[]|e] data']; [|done].
  unfold print. cbn [file stdout]. by rewrite <-app_assoc.
Qed.

Lemma size_lookup_ne_0 data (key : string) :
  is_Some (data !! key) → size data ≠ 0%nat.
Proof.
  intros [d Hd] Hsize. apply map_size_empty_iff in Hsize. subst data.
  by rewrite lookup_empty in Hd.
Qed.

End FribStage.

(** ** The checker, run *)

Section Checker.
Implicit Types (w : World Header) (gg fg : Group Header).

Lemma get_timestamp_Some gg (n ts : Z) :
  get_timestamp gg n = Some ts →
  ∃ header, gg !! evt_key n "_header" = Some header ∧ header !! 2%nat = Some ts.
Proof. unfold get_timestamp. intros H. by apply bind_Some in H. Qed.

Lemma frib_timestamp_Some fg (n ts : Z) :
  frib_timestamp fg n = Some ts →
  ∃ header, fg !! evt_key n "_header" = Some header ∧ header !! 1%nat = Some ts.
Proof. unfold frib_timestamp. intros H. by apply bind_Some in H. Qed.

Lemma index_bind {B} (header : list Z) (i : nat) (v : Z)
    (k : Z → M Header B) w :
  header !! i = Some v → (index header i ≫= k) w = k v w.
Proof. intros Hv. rewrite bind_run. unfold index. by rewrite Hv. Qed.

(** One turn of the loop on an index whose two timestamps are there. *)
Lemma scan_cons (offset : spec_float) (event : Z) (rest : list Z) w gg fg
    (g f : Z) :
  get (file w) = Some gg → frib (file w) = Some (Some fg) →
  get_timestamp gg event = Some g → frib_timestamp fg event = Some f →
  scan HGet HFribEvt offset (event :: rest) w
  = if exceeds (g - f) offset
    then (OK tt,
          mkWorld (file w)
                  (stdout w ++ [MsgMismatch event (g - f) g (py_float f) offset]))
    else scan HGet HFribEvt offset rest w.
Proof.
  intros Hgg Hfg Hg Hf.
  apply get_timestamp_Some in Hg as (hg & Hhg & Hg).
  apply frib_timestamp_Some in Hf as (hf & Hhf & Hf).
  assert (deref HFribEvt (file w) = Some fg) as Hd
    by (cbn [deref]; by rewrite Hfg).
  cbn [scan].
  rewrite (read_bind h5_getitem HGet _ _ w gg Hgg). unfold h5_getitem at 1.
  rewrite Hhg.
  rewrite (read_bind h5_getitem HFribEvt _ _ w fg Hd). unfold h5_getitem.
  rewrite Hhf.
  rewrite (index_bind _ _ g) by done. rewrite (index_bind _ _ f) by done.
  by destruct (exceeds (g - f) offset).
Qed.

(** The loop stops at the first index that exceeds the tolerance. *)
Lemma scan_stops (offset : spec_float) (G F : Z → Z) (before : list Z)
    (event : Z) (after : list Z) w gg fg :
  get (file w) = Some gg → frib (file w) = Some (Some fg) →
  (∀ n, n ∈ before ∨ n = event →
        get_timestamp gg n = Some (G n) ∧ frib_timestamp fg n = Some (F n)) →
  (∀ n, n ∈ before → exceeds (G n - F n) offset = false) →
  exceeds (G event - F event) offset = true →
  scan HGet HFribEvt offset (before ++ event :: after) w
  = (OK tt,
     mkWorld (file w)
             (stdout w ++ [MsgMismatch event (G event - F event) (G event)
                                       (py_float (F event)) offset])).
Proof.
  intros Hgg Hfg Hts Hok Hbad.
  induction before as [|n before IH]; cbn [app].
  - destruct (Hts event) as [Hg Hf]; [by right|].
    by rewrite (scan_cons _ _ _ _ gg fg _ _ Hgg Hfg Hg Hf), Hbad.
  - destruct (Hts n) as [Hg Hf]; [left; by left|].
    rewrite (scan_cons _ _ _ _ gg fg _ _ Hgg Hfg Hg Hf), Hok by left.
    apply IH.
    + intros m [Hm| ->]; apply Hts; [left; by right|by right].
    + intros m Hm. apply Hok. by right.
Qed.

(** The loop runs to its end when no index exceeds the tolerance. *)
Lemma scan_completes (offset : spec_float) (G F : Z → Z) (events : list Z)
    w gg fg :
  get (file w) = Some gg → frib (file w) = Some (Some fg) →
  (∀ n, n ∈ events →
        get_timestamp gg n = Some (G n) ∧ frib_timestamp fg n = Some (F n)) →
  (∀ n, n ∈ events → exceeds (G n - F n) offset = false) →
  scan HGet HFribEvt offset events w
  = (OK tt, mkWorld (file w) (stdout w ++ [MsgTimestampsMatch])).
Proof.
  intros Hgg Hfg Hts Hok.
  induction events as [|n events IH]; [done|].
  destruct (Hts n) as [Hg Hf]; [by left|].
  rewrite (scan_cons _ _ _ _ gg fg _ _ Hgg Hfg Hg Hf), Hok by left.
  apply IH.
  - intros m Hm. apply Hts. by right.
  - intros m Hm. apply Hok. by right.
Qed.

(** Up to the loop: the metadata, the two groups, the reference offset. *)
Lemma check_timestamps_run (path : string) (c : Container Header)
    (out : list message) (event_min event_max : Z) gg fg (g0 f0 : Z) :
  meta_data c !! 0%nat = Some event_min →
  meta_data c !! 2%nat = Some event_max →
  get c = Some gg → frib c = Some (Some fg) →
  get_timestamp gg event_min = Some g0 →
  frib_timestamp fg event_min = Some f0 →
  check_timestamps path (mkWorld c out)
  = scan HGet HFribEvt (float_sub (py_float g0) (py_float f0))
      (range event_min event_max)
      (mkWorld c (out ++ [MsgCheckingTimestamps])).
Proof.
  intros Hm0 Hm2 Hgg Hfg Hg Hf.
  apply get_timestamp_Some in Hg as (hg & Hhg & Hg).
  apply frib_timestamp_Some in Hf as (hf & Hhf & Hf).
  unfold check_timestamps. rewrite print_bind.
  cbn [file stdout].
  set (w := mkWorld c (out ++ [MsgCheckingTimestamps])).
  assert (deref HFribEvt (file w) = Some fg) as Hd
    by (cbn [deref file w]; by rewrite Hfg).
  rewrite (meta_get_bind _ _ w event_min) by exact Hm0.
  rewrite (meta_get_bind _ _ w event_max) by exact Hm2.
  rewrite (open_group_bind HGet _ w gg) by exact Hgg.
  rewrite (open_group_bind HFribEvt _ w fg) by exact Hd.
  rewrite (read_bind h5_getitem HGet _ _ w gg Hgg). unfold h5_getitem at 1.
  rewrite Hhg, (index_bind _ _ g0) by done.
  rewrite (read_bind h5_getitem HFribEvt _ _ w fg Hd). unfold h5_getitem.
  by rewrite Hhf, (index_bind _ _ f0) by done.
Qed.

End Checker.

(** * The claims *)

Section OffsetRepair.
Context {D : Type} (getitem : Group D → string → result D).

(** C1.  On a file whose metadata has event_min different from 0, whose
    get group holds the data entry and the header of every event from
    event_min to event_max, and where no name the repair moves an entry
    to is held by an entry outside that range (with all events on one
    side of 0), the repair of the get group performs the renames of
    [get_schedule] (for idx, event enumerating
    [range(event_min, event_max + 1)]: [evt{event}_data] to
    [evt{idx}_data], [evt{event}_header] to [evt{idx}_header]) and
    completes; the entries of event [event_min + idx] are then found
    under [idx], the names above the new range are free, and the
    metadata has 0 at position 0 and [event_max - event_min] at
    position 2.  The same holds at the end of [fix_event_numbers]. *)
Theorem get_offset_repair (path : string) (c : Container D)
    (out : list message) (event_min event_max : Z) (g : Group D) :
  meta_data c !! 0%nat = Some event_min →
  meta_data c !! 2%nat = Some event_max →
  get c = Some g →
  event_min ≠ 0 →
  0 < event_min ∨ event_max < 0 →
  (∀ n, event_min ≤ n ≤ event_max →
        is_Some (g !! evt_key n "_data") ∧ is_Some (g !! evt_key n "_header")) →
  (∀ n, 0 ≤ n ≤ event_max - event_min → ¬ (event_min ≤ n ≤ event_max) →
        g !! evt_key n "_data" = None ∧ g !! evt_key n "_header" = None) →
  ∃ (g' : Group D) (meta' : list Z),
    run_renames g (get_schedule event_min event_max) = (OK tt, g')
    ∧ meta' = <[2%nat := event_max - event_min]> (<[0%nat := 0]> (meta_data c))
    ∧ get_repair event_min event_max (mkWorld c out)
      = (OK tt,
         mkWorld (mkContainer meta' (Some g') (frib c))
                 (out ++ [MsgCheckingGet; MsgGetOffsetDetected; MsgGetRepaired]))
    ∧ (∀ idx, 0 ≤ idx ≤ event_max - event_min →
         g' !! evt_key idx "_data" = g !! evt_key (event_min + idx) "_data"
         ∧ g' !! evt_key idx "_header" = g !! evt_key (event_min + idx) "_header")
    ∧ (∀ n, event_min ≤ n ≤ event_max → ¬ (0 ≤ n ≤ event_max - event_min) →
         g' !! evt_key n "_data" = None ∧ g' !! evt_key n "_header" = None)
    ∧ meta' !! 0%nat = Some 0
    ∧ meta' !! 2%nat = Some (event_max - event_min)
    ∧ get (file (fix_event_numbers getitem path (mkWorld c out)).2) = Some g'
    ∧ meta_data (file (fix_event_numbers getitem path (mkWorld c out)).2) = meta'.
Proof.
  intros Hm0 Hm2 Hg Hne Hside Hsrc Htgt.
  assert (2 < length (meta_data c))%nat as Hlen
    by (apply lookup_lt_Some in Hm2; lia).
  destruct (shift_schedule_runs_Z event_min "_data" "_header"
              (event_max + 1 - event_min) g)
    as (g' & Hrun & [Hd Hdf] & [Hh Hhf] & _).
  { apply data_header_ne. }
  { lia. }
  { intros k Hk. apply Hsrc. lia. }
  { intros k Hk Hout. apply Htgt; lia. }
  rewrite <-get_schedule_shift in Hrun.
  pose proof (get_repair_run event_min event_max c out g Hne Hg Hlen) as Hrep.
  rewrite Hrun in Hrep.
  exists g', (<[2%nat := event_max - event_min]> (<[0%nat := 0]> (meta_data c))).
  split; [done|]. split; [done|]. split; [done|].
  split. { intros idx Hidx. split; [apply Hd|apply Hh]; lia. }
  split. { intros n Hn Hout. split; [apply Hdf|apply Hhf]; lia. }
  split. { rewrite list_lookup_insert_ne by done.
           apply list_lookup_insert_eq. lia. }
  split. { apply list_lookup_insert_eq. rewrite length_insert. lia. }
  rewrite (fix_event_numbers_run getitem path c out _ _ Hm0 Hm2), bind_run.
  pose proof (get_repair_run event_min event_max c (out ++ [MsgFixingRun path])
                g Hne Hg Hlen) as Hrep'.
  rewrite Hrun in Hrep'. rewrite Hrep'.
  split.
  - by rewrite (frib_repair_frame getitem get).
  - by rewrite (frib_repair_frame getitem meta_data).
Qed.

End OffsetRepair.

(** The example of the description: events 5 to 10 and metadata
    [5, _, 10] become events 0 to 5 and metadata [0, _, 5]. *)
Lemma get_offset_repair_example :
  ∃ (g' : Group Z) (meta' : list Z),
    get_repair 5 10 (mkWorld offset_file [])
    = (OK tt,
       mkWorld (mkContainer meta' (Some g') None)
               [MsgCheckingGet; MsgGetOffsetDetected; MsgGetRepaired])
    ∧ meta' !! 0%nat = Some 0
    ∧ meta' !! 2%nat = Some 5
    ∧ (∀ idx, 0 ≤ idx ≤ 5 →
         g' !! evt_key idx "_data" = get_events 5 10 !! evt_key (5 + idx) "_data"
         ∧ g' !! evt_key idx "_header"
           = get_events 5 10 !! evt_key (5 + idx) "_header")
    ∧ (∀ n, 5 ≤ n ≤ 10 → ¬ (0 ≤ n ≤ 5) →
         g' !! evt_key n "_data" = None ∧ g' !! evt_key n "_header" = None).
Proof.
  destruct (get_offset_repair h5_getitem "run_0001.h5" offset_file [] 5 10
              (get_events 5 10))
    as (g' & meta' & _ & _ & Hrun & Hmoved & Hfree & Hm0 & Hm2 & _).
  - reflexivity.
  - reflexivity.
  - reflexivity.
  - lia.
  - lia.
  - intros n Hn.
    assert (n = 5 ∨ n = 6 ∨ n = 7 ∨ n = 8 ∨ n = 9 ∨ n = 10) as Hc by lia.
    destruct Hc as [->|[->|[->|[->|[->| ->]]]]]; split; vm_compute; eauto.
  - intros n Hn Hout.
    assert (n = 0 ∨ n = 1 ∨ n = 2 ∨ n = 3 ∨ n = 4) as Hc by lia.
    destruct Hc as [->|[->|[->|[->| ->]]]]; split; reflexivity.
  - exists g', meta'. auto.
Defined.

Section ShiftRepair.
Context {D : Type}.

(** C2.  On a frib/evt group that holds the 1903 entry and the header of
    every event from 1 to [event_range + 1] and nothing under event 0,
    the repair of the frib stream finds the first entry missing, performs
    the renames of [frib_schedule] (for event in
    [range(0, event_range + 1)]: [evt{event+1}_1903] to
    [evt{event}_1903], [evt{event+1}_header] to [evt{event}_header]) and
    completes; the entries of event [n + 1] are then found under [n] for
    n from 0 to [event_range], and nothing is left under
    [event_range + 1]. *)
Theorem frib_shift_by_one (path : string) (event_range : Z) (w : World D)
    (data : Group D) :
  0 ≤ event_range →
  frib (file w) = Some (Some data) →
  (∀ n, 1 ≤ n ≤ event_range + 1 →
        is_Some (data !! evt_key n "_1903") ∧ is_Some (data !! evt_key n "_header")) →
  data !! evt_key 0 "_1903" = None →
  data !! evt_key 0 "_header" = None →
  ∃ data' : Group D,
    run_renames data (frib_schedule event_range) = (OK tt, data')
    ∧ frib_repair h5_getitem path event_range w
      = (OK tt,
         mkWorld (mkContainer (meta_data (file w)) (get (file w))
                              (Some (Some data')))
                 (stdout w ++ [MsgCheckingFrib; MsgFribOffsetDetected;
                               MsgRunFixed path]))
    ∧ (∀ n, 0 ≤ n ≤ event_range →
         data' !! evt_key n "_1903" = data !! evt_key (n + 1) "_1903"
         ∧ data' !! evt_key n "_header" = data !! evt_key (n + 1) "_header")
    ∧ data' !! evt_key (event_range + 1) "_1903" = None
    ∧ data' !! evt_key (event_range + 1) "_header" = None.
Proof.
  intros HR Hfrib Hsrc H0 H0h.
  assert (deref HFribEvt (file w) = Some data) as Hd
    by (simpl; by rewrite Hfrib).
  destruct (shift_schedule_runs_Z 1 "_1903" "_header" (event_range + 1) data)
    as (data' & Hrun & [Hm Hmf] & [Hh Hhf] & _).
  { apply frib_header_ne. }
  { lia. }
  { intros k Hk. apply Hsrc. lia. }
  { intros k Hk Hout. assert (k = 0) as -> by lia. done. }
  rewrite <-frib_schedule_shift in Hrun.
  exists data'. split; [done|]. split; [|split; [|split]].
  - rewrite (frib_repair_start_fails _ _ _ _ data (KeyError "evt0_1903") Hd).
    + rewrite (frib_shift_run _ _ (mkWorld (file w) _) data Hd), Hrun.
      cbn [file stdout store]. by rewrite <-app_assoc.
    + apply (size_lookup_ne_0 _ (evt_key 1 "_1903")).
      by destruct (Hsrc 1) as [? _]; [lia|].
    + unfold h5_getitem. by rewrite evt0_1903_key, H0.
  - intros n Hn. rewrite (Z.add_comm n 1). split; [apply Hm|apply Hh]; lia.
  - apply Hmf; lia.
  - apply Hhf; lia.
Qed.

End ShiftRepair.

(** Events 1 to 3 become events 0 to 2, and nothing is left under 3. *)
Lemma frib_shift_by_one_example :
  ∃ data' : Group Z,
    frib_repair h5_getitem "run_0001.h5" 2 (mkWorld shifted_file [])
    = (OK tt,
       mkWorld (mkContainer [0; 77; 2] (Some (get_events 0 2)) (Some (Some data')))
               [MsgCheckingFrib; MsgFribOffsetDetected; MsgRunFixed "run_0001.h5"])
    ∧ (∀ n, 0 ≤ n ≤ 2 →
         data' !! evt_key n "_1903" = frib_events 1 3 !! evt_key (n + 1) "_1903"
         ∧ data' !! evt_key n "_header"
           = frib_events 1 3 !! evt_key (n + 1) "_header")
    ∧ data' !! evt_key 3 "_1903" = None
    ∧ data' !! evt_key 3 "_header" = None.
Proof.
  destruct (frib_shift_by_one "run_0001.h5" 2 (mkWorld shifted_file [])
              (frib_events 1 3))
    as (data' & _ & Hrun & Hmoved & Hfree & Hfreeh).
  - lia.
  - reflexivity.
  - intros n Hn. assert (n = 1 ∨ n = 2 ∨ n = 3) as Hc by lia.
    destruct Hc as [->|[->| ->]]; split; vm_compute; eauto.
  - reflexivity.
  - reflexivity.
  - exists data'. auto.
Defined.

(** C3.  The checker on [negative_drift_file]: the offset at index 1 is
    50, the reference offset is 100, and the checker prints that the
    timestamps match: it compares [this_offset - offset] with 1 and never
    [offset - this_offset]. *)
Theorem success_despite_negative_drift :
  check_timestamps "run_0001.h5" (mkWorld negative_drift_file [])
  = (OK tt,
     mkWorld negative_drift_file [MsgCheckingTimestamps; MsgTimestampsMatch])
  ∧ get_timestamp (get_headers [100; 50; 100]) 0 = Some 100
  ∧ frib_timestamp (frib_headers [0; 0; 0]) 0 = Some 0
  ∧ get_timestamp (get_headers [100; 50; 100]) 1 = Some 50
  ∧ frib_timestamp (frib_headers [0; 0; 0]) 1 = Some 0
  ∧ exceeds (50 - 0) (float_sub (py_float 100) (py_float 0)) = false.
Proof. vm_compute. done. Qed.

(** C4.  On a file whose two headers of event_min give the reference
    offset, the checker goes through the indices from event_min up, below
    event_max.  If [event] is the first index whose
    [this_offset = int(get_header[2]) - int(frib_header[1])] has
    [this_offset - offset > 1], and the headers of the indices up to
    [event] are there, it prints the mismatch with that index, that
    offset and the two values read, and returns: nothing is assumed of the
    indices after [event], whose headers are not read.  If the headers of
    all indices are there and none exceeds, it prints that the timestamps
    match. *)
Theorem first_mismatch_stops_scan (path : string) (c : Container Header)
    (out : list message) (event_min event_max : Z)
    (gg fg : Group Header) (G F : Z → Z) :
  meta_data c !! 0%nat = Some event_min →
  meta_data c !! 2%nat = Some event_max →
  get c = Some gg →
  frib c = Some (Some fg) →
  get_timestamp gg event_min = Some (G event_min) →
  frib_timestamp fg event_min = Some (F event_min) →
  (∀ event,
     event_min ≤ event < event_max →
     (∀ n, event_min ≤ n ≤ event →
           get_timestamp gg n = Some (G n) ∧ frib_timestamp fg n = Some (F n)) →
     (∀ n, event_min ≤ n < event →
           exceeds (G n - F n)
             (float_sub (py_float (G event_min)) (py_float (F event_min)))
           = false) →
     exceeds (G event - F event)
       (float_sub (py_float (G event_min)) (py_float (F event_min))) = true →
     check_timestamps path (mkWorld c out)
     = (OK tt,
        mkWorld c
          (out ++ [MsgCheckingTimestamps;
                   MsgMismatch event (G event - F event) (G event)
                     (py_float (F event))
                     (float_sub (py_float (G event_min))
                                (py_float (F event_min)))])))
  ∧ ((∀ n, event_min ≤ n < event_max →
           get_timestamp gg n = Some (G n) ∧ frib_timestamp fg n = Some (F n)) →
     (∀ n, event_min ≤ n < event_max →
           exceeds (G n - F n)
             (float_sub (py_float (G event_min)) (py_float (F event_min)))
           = false) →
     check_timestamps path (mkWorld c out)
     = (OK tt, mkWorld c (out ++ [MsgCheckingTimestamps; MsgTimestampsMatch]))).
Proof.
  intros Hm0 Hm2 Hgg Hfg Hg0 Hf0.
  rewrite (check_timestamps_run path c out _ _ gg fg _ _ Hm0 Hm2 Hgg Hfg Hg0 Hf0).
  split.
  - intros event Hev Hts Hok Hbad. unfold range.
    replace (event_max - event_min)
      with ((event - event_min) + (event_max - event)) by lia.
    rewrite seqZ_app by lia.
    rewrite (seqZ_cons (event_min + (event - event_min))) by lia.
    replace (event_min + (event - event_min)) with event by lia.
    rewrite (scan_stops _ G F _ event _ (mkWorld c _) gg fg Hgg Hfg).
    + cbn [file stdout]. by rewrite <-app_assoc.
    + intros n [Hn| ->]; [apply elem_of_seqZ in Hn|]; apply Hts; lia.
    + intros n Hn. apply elem_of_seqZ in Hn. apply Hok. lia.
    + done.
  - intros Hts Hok.
    rewrite (scan_completes _ G F _ (mkWorld c _) gg fg Hgg Hfg).
    + cbn [file stdout]. by rewrite <-app_assoc.
    + intros n Hn. apply elem_of_seqZ in Hn. apply Hts. lia.
    + intros n Hn. apply elem_of_seqZ in Hn. apply Hok. lia.
Qed.

(** Index 2 of [drift_file] is reported and index 3, which has no frib
    header, is never read; [synchronized_file] passes. *)
Lemma first_mismatch_stops_scan_example :
  check_timestamps "run_0001.h5" (mkWorld drift_file [])
  = (OK tt,
     mkWorld drift_file
       ([] ++ [MsgCheckingTimestamps;
               MsgMismatch 2 (drift_get 2 - 0) (drift_get 2) (py_float 0)
                 (float_sub (py_float (drift_get 0)) (py_float 0))]))
  ∧ check_timestamps "run_0001.h5" (mkWorld synchronized_file [])
    = (OK tt,
       mkWorld synchronized_file
               ([] ++ [MsgCheckingTimestamps; MsgTimestampsMatch])).
Proof.
  split.
  - destruct (first_mismatch_stops_scan "run_0001.h5" drift_file [] 0 4
                (get_headers [100; 101; 103; 110]) (frib_headers [0; 0; 0])
                drift_get (λ _, 0)) as [Hstop _].
    + reflexivity.
    + reflexivity.
    + reflexivity.
    + reflexivity.
    + vm_compute. reflexivity.
    + vm_compute. reflexivity.
    + apply (Hstop 2).
      * lia.
      * intros n Hn. assert (n = 0 ∨ n = 1 ∨ n = 2) as Hc by lia.
        destruct Hc as [->|[->| ->]]; split; vm_compute; reflexivity.
      * intros n Hn. assert (n = 0 ∨ n = 1) as Hc by lia.
        destruct Hc as [->| ->]; vm_compute; reflexivity.
      * vm_compute. reflexivity.
  - destruct (first_mismatch_stops_scan "run_0001.h5" synchronized_file [] 0 3
                (get_headers [100; 105; 110]) (frib_headers [0; 5; 10])
                synchronized_get synchronized_frib) as [_ Hpass].
    + reflexivity.
    + reflexivity.
    + reflexivity.
    + reflexivity.
    + vm_compute. reflexivity.
    + vm_compute. reflexivity.
    + apply Hpass.
      * intros n Hn. assert (n = 0 ∨ n = 1 ∨ n = 2) as Hc by lia.
        destruct Hc as [->|[->| ->]]; split; vm_compute; reflexivity.
      * intros n Hn. assert (n = 0 ∨ n = 1 ∨ n = 2) as Hc by lia.
        destruct Hc as [->|[->| ->]]; vm_compute; reflexivity.
Defined.

Section ShiftDetection.
Context {D : Type}.

(** C5.  When frib/evt holds [evt0_1903] and [evt{event_range}_1903],
    with [event_range = event_max - event_min] taken from the metadata as
    it is before the repair of the get group, [fix_event_numbers] leaves
    the frib/evt group as it was, entry for entry; and when the repair of
    the get group completes, the function completes after reporting that
    start and end look fine. *)
Theorem frib_skip_when_indexed (path : string) (c : Container D)
    (out : list message) (event_min event_max : Z) (data : Group D) :
  meta_data c !! 0%nat = Some event_min →
  meta_data c !! 2%nat = Some event_max →
  frib c = Some (Some data) →
  is_Some (data !! "evt0_1903") →
  is_Some (data !! evt_key (event_max - event_min) "_1903") →
  frib (file (fix_event_numbers h5_getitem path (mkWorld c out)).2)
  = Some (Some data)
  ∧ ∀ w1, get_repair event_min event_max (mkWorld c (out ++ [MsgFixingRun path]))
          = (OK tt, w1) →
      fix_event_numbers h5_getitem path (mkWorld c out)
      = (OK tt,
         mkWorld (file w1)
                 (stdout w1 ++ [MsgCheckingFrib; MsgStartOk path; MsgEndOk path])).
Proof.
  intros Hm0 Hm2 Hfrib [d0 H0] [d1 H1].
  rewrite (fix_event_numbers_run h5_getitem path c out _ _ Hm0 Hm2), bind_run.
  pose proof (get_repair_frib (D := D) event_min event_max
                (mkWorld c (out ++ [MsgFixingRun path]))) as Hframe.
  destruct (get_repair event_min event_max _) as [[[]|e] w1];
    cbn [snd file] in Hframe.
  2: { split; [by rewrite <-Hfrib|done]. }
  assert (deref HFribEvt (file w1) = Some data) as Hd.
  { cbn [deref]. by rewrite Hframe, Hfrib. }
  rewrite (frib_repair_skip h5_getitem path _ w1 data d0 d1 Hd).
  - split; [cbn [snd file]; by rewrite Hframe|]. by intros w [= <-].
  - apply (size_lookup_ne_0 _ "evt0_1903"). by exists d0.
  - unfold h5_getitem. by rewrite H0.
  - unfold h5_getitem. by rewrite H1.
Qed.

End ShiftDetection.

(** The get group is renumbered from 5..7 to 0..2; the frib stream, which
    has events 0 and 2 = 7 - 5, is left alone. *)
Lemma frib_skip_when_indexed_example :
  frib (file (fix_event_numbers h5_getitem "run_0001.h5"
                (mkWorld offset_only_file [])).2)
  = Some (Some (frib_events 0 2))
  ∧ (fix_event_numbers h5_getitem "run_0001.h5" (mkWorld offset_only_file [])).1
    = OK tt.
Proof.
  destruct (frib_skip_when_indexed "run_0001.h5" offset_only_file [] 5 7
              (frib_events 0 2)) as [Hsame Hdone].
  - reflexivity.
  - reflexivity.
  - reflexivity.
  - vm_compute. eauto.
  - vm_compute. eauto.
  - split; [exact Hsame|].
    rewrite (Hdone (get_repair 5 7
                      (mkWorld offset_only_file [MsgFixingRun "run_0001.h5"])).2).
    + reflexivity.
    + vm_compute. reflexivity.
Defined.

Section NoOffset.
Context {D : Type} (getitem : Group D → string → result D).

(** C6.  On a file whose metadata has event_min equal to 0 the repair of
    the get group does nothing but print that it checks, and at the end
    of [fix_event_numbers] the get group and the metadata record are
    what they were. *)
Theorem get_repair_noop (path : string) (c : Container D)
    (out : list message) (event_max : Z) :
  meta_data c !! 0%nat = Some 0 →
  get_repair 0 event_max (mkWorld c out)
  = (OK tt, mkWorld c (out ++ [MsgCheckingGet]))
  ∧ get (file (fix_event_numbers getitem path (mkWorld c out)).2) = get c
  ∧ meta_data (file (fix_event_numbers getitem path (mkWorld c out)).2)
    = meta_data c.
Proof.
  intros Hm0. split; [done|].
  destruct (meta_data c !! 2%nat) as [emax|] eqn:Hm2.
  - rewrite (fix_event_numbers_run getitem path c out _ _ Hm0 Hm2), bind_run.
    rewrite get_repair_skip.
    split.
    + by rewrite (frib_repair_frame getitem get).
    + by rewrite (frib_repair_frame getitem meta_data).
  - by rewrite (fix_event_numbers_short getitem path c out _ Hm0 Hm2).
Qed.

End NoOffset.

(** The frib stream of [shifted_file] is repaired; its get group and its
    metadata, which start at 0, stay. *)
Lemma get_repair_noop_example :
  get_repair 0 2 (mkWorld shifted_file [])
  = (OK tt, mkWorld shifted_file [MsgCheckingGet])
  ∧ get (file (fix_event_numbers h5_getitem "run_0001.h5"
                 (mkWorld shifted_file [])).2)
    = Some (get_events 0 2)
  ∧ meta_data (file (fix_event_numbers h5_getitem "run_0001.h5"
                       (mkWorld shifted_file [])).2)
    = [0; 77; 2].
Proof.
  apply (get_repair_noop h5_getitem "run_0001.h5" shifted_file [] 2).
  reflexivity.
Defined.

Section MissingFrib.
Context {D : Type} (getitem : Group D → string → result D).

(** C7.  On a file without the group frib, or whose frib has no evt, or
    whose frib/evt has no entry, once the repair of the get group has
    completed, [fix_event_numbers] reports that there is no FRIBDAQ data
    and returns without raising; the file is the one the repair of the
    get group left. *)
Theorem missing_frib_is_skipped (path : string) (c : Container D)
    (out : list message) (event_min event_max : Z) (w1 : World D) :
  meta_data c !! 0%nat = Some event_min →
  meta_data c !! 2%nat = Some event_max →
  frib c = None ∨ frib c = Some None
    ∨ (∃ data, frib c = Some (Some data) ∧ size data = 0%nat) →
  get_repair event_min event_max (mkWorld c (out ++ [MsgFixingRun path]))
  = (OK tt, w1) →
  fix_event_numbers getitem path (mkWorld c out)
  = (OK tt,
     mkWorld (file w1) (stdout w1 ++ [MsgCheckingFrib; MsgNoFribData path])).
Proof.
  intros Hm0 Hm2 Hfrib Hget.
  rewrite (fix_event_numbers_run getitem path c out _ _ Hm0 Hm2), bind_run.
  pose proof (get_repair_frib (D := D) event_min event_max
                (mkWorld c (out ++ [MsgFixingRun path]))) as Hframe.
  rewrite Hget in *. cbn [snd file] in Hframe.
  destruct Hfrib as [Hf|[Hf|(data & Hf & Hsize)]].
  - apply frib_repair_absent. cbn [deref]. by rewrite Hframe, Hf.
  - apply frib_repair_absent. cbn [deref]. by rewrite Hframe, Hf.
  - apply (frib_repair_empty _ _ _ _ data); [|done].
    cbn [deref]. by rewrite Hframe, Hf.
Qed.

End MissingFrib.

(** [offset_file] has no frib group: its get group is renumbered, the
    absence of FRIBDAQ data is reported, and nothing is raised. *)
Lemma missing_frib_is_skipped_example :
  ∃ w1 : World Z,
    get_repair 5 10 (mkWorld offset_file [MsgFixingRun "run_0001.h5"])
    = (OK tt, w1)
    ∧ fix_event_numbers h5_getitem "run_0001.h5" (mkWorld offset_file [])
      = (OK tt,
         mkWorld (file w1)
                 (stdout w1 ++ [MsgCheckingFrib; MsgNoFribData "run_0001.h5"])).
Proof.
  exists (get_repair 5 10 (mkWorld offset_file [MsgFixingRun "run_0001.h5"])).2.
  assert (get_repair 5 10 (mkWorld offset_file [MsgFixingRun "run_0001.h5"])
          = (OK tt,
             (get_repair 5 10
                (mkWorld offset_file [MsgFixingRun "run_0001.h5"])).2)) as Hget.
  { vm_compute. reflexivity. }
  split; [exact Hget|].
  apply (missing_frib_is_skipped h5_getitem "run_0001.h5" offset_file [] 5 10).
  - reflexivity.
  - reflexivity.
  - left. reflexivity.
  - exact Hget.
Defined.

Section RenameOrder.
Context {D : Type}.

(** C8.  In the loop over the get group, when the group holds data
    entries and headers for exactly the events event_min to event_max and
    event_min is positive (so that idx is never above event), and in the
    loop over frib/evt, when the group holds 1903 entries and headers for
    exactly the events 1 to [event_range + 1]: every rename finds its
    target name free at the moment it is performed, and the loop runs to
    its end.  [event_range] may be 0. *)
Theorem renames_never_collide (w : World D) :
  (∀ (event_min event_max : Z) (g : Group D),
     0 < event_min →
     get (file w) = Some g →
     (∀ n, is_Some (g !! evt_key n "_data") ↔ event_min ≤ n ≤ event_max) →
     (∀ n, is_Some (g !! evt_key n "_header") ↔ event_min ≤ n ≤ event_max) →
     targets_vacant g (get_schedule event_min event_max)
     ∧ ∃ g', for_ (enumerate (range event_min (event_max + 1))) (get_body HGet) w
             = (OK tt, mkWorld (store HGet g' (file w)) (stdout w)))
  ∧ (∀ (event_range : Z) (data : Group D),
       0 ≤ event_range →
       frib (file w) = Some (Some data) →
       (∀ n, is_Some (data !! evt_key n "_1903") ↔ 1 ≤ n ≤ event_range + 1) →
       (∀ n, is_Some (data !! evt_key n "_header") ↔ 1 ≤ n ≤ event_range + 1) →
       targets_vacant data (frib_schedule event_range)
       ∧ ∃ data', for_ (range 0 (event_range + 1)) (frib_body HFribEvt) w
                  = (OK tt, mkWorld (store HFribEvt data' (file w)) (stdout w))).
Proof.
  split.
  - intros event_min event_max g Hpos Hg Hdata Hheader.
    destruct (shift_schedule_runs_Z event_min "_data" "_header"
                (event_max + 1 - event_min) g) as (g' & Hrun & _).
    { apply data_header_ne. }
    { lia. }
    { intros k Hk. split; [apply Hdata|apply Hheader]; lia. }
    { intros k Hk Hout. split; apply eq_None_not_Some; intros Hsome;
        [apply Hdata in Hsome|apply Hheader in Hsome]; lia. }
    rewrite <-get_schedule_shift in Hrun. split.
    + apply (run_renames_vacant _ _ g'); [|done].
      rewrite get_schedule_shift. apply shift_schedule_distinct. lia.
    + exists g'. by rewrite (get_loop_run _ _ _ g Hg), Hrun.
  - intros event_range data HR Hfrib Hentry Hheader.
    assert (deref HFribEvt (file w) = Some data) as Hd
      by (cbn [deref]; by rewrite Hfrib).
    destruct (shift_schedule_runs_Z 1 "_1903" "_header" (event_range + 1) data)
      as (data' & Hrun & _).
    { apply frib_header_ne. }
    { lia. }
    { intros k Hk. split; [apply Hentry|apply Hheader]; lia. }
    { intros k Hk Hout. split; apply eq_None_not_Some; intros Hsome;
        [apply Hentry in Hsome|apply Hheader in Hsome]; lia. }
    rewrite <-frib_schedule_shift in Hrun. split.
    + apply (run_renames_vacant _ _ data'); [|done].
      rewrite frib_schedule_shift. by apply shift_schedule_distinct.
    + exists data'. by rewrite (frib_loop_run _ _ data Hd), Hrun.
Qed.

End RenameOrder.

(** One event in each stream, [event_range = 0]: event 5 goes to 0 in the
    get group, event 1 goes to 0 in frib/evt, onto free names. *)
Lemma renames_never_collide_example :
  (targets_vacant (get_events 5 5) (get_schedule 5 5)
   ∧ ∃ g', for_ (enumerate (range 5 (5 + 1))) (get_body HGet)
             (mkWorld single_event_file [])
           = (OK tt, mkWorld (store HGet g' single_event_file) []))
  ∧ (targets_vacant (frib_events 1 1) (frib_schedule 0)
     ∧ ∃ data', for_ (range 0 (0 + 1)) (frib_body HFribEvt)
                  (mkWorld single_event_file [])
                = (OK tt, mkWorld (store HFribEvt data' single_event_file) [])).
Proof.
  destruct (renames_never_collide (mkWorld single_event_file [])) as [Hget Hfrib].
  split.
  - apply (Hget 5 5 (get_events 5 5)).
    + lia.
    + reflexivity.
    + intros n.
      destruct (stream_events_lookup "_data" "_header" 5 5 n data_header_ne)
        as [Hl _].
      unfold get_events. rewrite Hl. case_decide.
      * split; [done|by eexists].
      * split; [by intros []|done].
    + intros n.
      destruct (stream_events_lookup "_data" "_header" 5 5 n data_header_ne)
        as [_ Hl].
      unfold get_events. rewrite Hl. case_decide.
      * split; [done|by eexists].
      * split; [by intros []|done].
  - apply (Hfrib 0 (frib_events 1 1)).
    + lia.
    + reflexivity.
    + intros n.
      destruct (stream_events_lookup "_1903" "_header" 1 1 n frib_header_ne)
        as [Hl _].
      unfold frib_events. rewrite Hl. case_decide.
      * split; [lia|by eexists].
      * split; [by intros []|lia].
    + intros n.
      destruct (stream_events_lookup "_1903" "_header" 1 1 n frib_header_ne)
        as [_ Hl].
      unfold frib_events. rewrite Hl. case_decide.
      * split; [lia|by eexists].
      * split; [by intros []|lia].
Defined.

Section RenameFailure.
Context {D : Type} (getitem : Group D → string → result D).

(** C9.  When, after a prefix of the renames of the offset repair has
    been performed, the source of the next rename is missing,
    [fix_event_numbers] raises the exception of that rename, the
    [ValueError] with which h5py refuses to move a link that is not there,
    and the file it leaves has the get group as the prefix left it, the
    metadata not yet rewritten.  Likewise, when the repair of the get
    group has completed, the probe of frib/evt has raised and, after a
    prefix of the renames of the shift, the source of the next rename is
    missing: [fix_event_numbers] raises the [ValueError] of that rename
    and leaves frib/evt as the prefix left it.  Nothing is renamed
    back. *)
Theorem rename_missing_source_aborts (path : string) (c : Container D)
    (out : list message) (event_min event_max : Z) :
  meta_data c !! 0%nat = Some event_min →
  meta_data c !! 2%nat = Some event_max →
  (∀ (g g1 : Group D) (pre post : list (string * string))
     (old_key new_key : string),
     event_min ≠ 0 →
     get c = Some g →
     get_schedule event_min event_max = pre ++ (old_key, new_key) :: post →
     run_renames g pre = (OK tt, g1) →
     g1 !! old_key = None →
     fix_event_numbers getitem path (mkWorld c out)
     = (Raise (ValueError (SourceMissing old_key)),
        mkWorld (mkContainer (meta_data c) (Some g1) (frib c))
                (out ++ [MsgFixingRun path; MsgCheckingGet;
                         MsgGetOffsetDetected])))
  ∧ (∀ (w1 : World D) (data data1 : Group D) (e : exn)
       (pre post : list (string * string)) (old_key new_key : string),
       get_repair event_min event_max (mkWorld c (out ++ [MsgFixingRun path]))
       = (OK tt, w1) →
       frib (file w1) = Some (Some data) →
       size data ≠ 0%nat →
       getitem data "evt0_1903" = Raise e
         ∨ (∃ d0, getitem data "evt0_1903" = OK d0
                  ∧ getitem data (evt_key (event_max - event_min) "_1903")
                    = Raise e) →
       frib_schedule (event_max - event_min)
       = pre ++ (old_key, new_key) :: post →
       run_renames data pre = (OK tt, data1) →
       data1 !! old_key = None →
       ∃ seen : list message,
         fix_event_numbers getitem path (mkWorld c out)
         = (Raise (ValueError (SourceMissing old_key)),
            mkWorld (mkContainer (meta_data (file w1)) (get (file w1))
                                 (Some (Some data1)))
                    (stdout w1 ++ MsgCheckingFrib :: seen
                               ++ [MsgFribOffsetDetected]))).
Proof.
  intros Hm0 Hm2.
  rewrite (fix_event_numbers_run getitem path c out _ _ Hm0 Hm2), bind_run.
  split.
  - intros g g1 pre post old_key new_key Hne Hg Hsched Hpre Hold.
    assert (2 < length (meta_data c))%nat as Hlen
      by (apply lookup_lt_Some in Hm2; lia).
    rewrite (get_repair_run event_min event_max c _ g Hne Hg Hlen), Hsched.
    assert (old_key ≠ new_key) as Hon.
    { pose proof (shift_schedule_distinct event_min "_data" "_header"
                    (event_max + 1 - event_min) Hne) as Hall.
      rewrite <-get_schedule_shift, Hsched in Hall.
      apply Forall_app in Hall as [_ Hall].
      by apply Forall_cons in Hall as [Hall _]. }
    rewrite (run_renames_missing_source g pre old_key new_key post g1 Hon Hpre Hold).
    by rewrite <-app_assoc.
  - intros w1 data data1 e pre post old_key new_key
      Hget Hfrib Hsize Hprobe Hsched Hpre Hold.
    rewrite Hget.
    assert (deref HFribEvt (file w1) = Some data) as Hd
      by (cbn [deref]; by rewrite Hfrib).
    destruct (frib_repair_probe_fails getitem path (event_max - event_min)
                w1 data e Hd Hsize Hprobe) as (seen & _ & Heq).
    exists seen.
    rewrite Heq, (frib_shift_run _ _ (mkWorld (file w1) _) data Hd), Hsched.
    assert (old_key ≠ new_key) as Hon.
    { pose proof (shift_schedule_distinct 1 "_1903" "_header"
                    (event_max - event_min + 1) ltac:(done)) as Hall.
      rewrite <-frib_schedule_shift, Hsched in Hall.
      apply Forall_app in Hall as [_ Hall].
      by apply Forall_cons in Hall as [Hall _]. }
    rewrite (run_renames_missing_source data pre old_key new_key post data1 Hon Hpre Hold).
    cbn [file stdout store].
    by rewrite <-app_assoc.
Qed.

End RenameFailure.

Example gap_in_get_left_lookup :
  gap_in_get_left !! "evt0_data" = Some 5
  ∧ gap_in_get_left !! "evt1_data" = Some 6
  ∧ gap_in_get_left !! "evt7_data" = Some 7.
Proof. vm_compute. done. Qed.

Example gap_in_frib_left_lookup :
  gap_in_frib_left !! "evt0_1903" = Some 1
  ∧ gap_in_frib_left !! "evt3_1903" = Some 3.
Proof. vm_compute. done. Qed.

(** The header of event 6 is missing: event 5 and the data entry of 6
    have been moved, event 7 has not, and the metadata still says 5 to 7.
    The 1903 entry of event 2 is missing: event 1 has been moved to 0, the
    rest stays where it was. *)
Lemma rename_missing_source_aborts_example :
  (fix_event_numbers h5_getitem "run_0001.h5" (mkWorld gap_in_get [])
   = (Raise (ValueError (SourceMissing "evt6_header")),
      mkWorld (mkContainer [5; 77; 7] (Some gap_in_get_left) None)
              [MsgFixingRun "run_0001.h5"; MsgCheckingGet; MsgGetOffsetDetected])
   ∧ gap_in_get_left !! "evt0_data" = Some 5
   ∧ gap_in_get_left !! "evt1_data" = Some 6
   ∧ gap_in_get_left !! "evt7_data" = Some 7)
  ∧ (∃ seen : list message,
       fix_event_numbers h5_getitem "run_0001.h5" (mkWorld gap_in_frib [])
       = (Raise (ValueError (SourceMissing "evt2_1903")),
          mkWorld (mkContainer [0; 77; 2] (Some (get_events 0 2))
                               (Some (Some gap_in_frib_left)))
                  ([MsgFixingRun "run_0001.h5"; MsgCheckingGet]
                     ++ MsgCheckingFrib :: seen ++ [MsgFribOffsetDetected]))
       ∧ gap_in_frib_left !! "evt0_1903" = Some 1
       ∧ gap_in_frib_left !! "evt3_1903" = Some 3).
Proof.
  split.
  - destruct (rename_missing_source_aborts h5_getitem "run_0001.h5" gap_in_get []
                5 7) as [Hget _].
    + reflexivity.
    + reflexivity.
    + split; [|exact gap_in_get_left_lookup].
      apply (Hget (delete (evt_key 6 "_header") (get_events 5 7))
               gap_in_get_left gap_in_get_done
               [("evt7_data", "evt2_data"); ("evt7_header", "evt2_header")]
               "evt6_header" "evt1_header").
      * lia.
      * reflexivity.
      * vm_compute. reflexivity.
      * vm_compute. reflexivity.
      * vm_compute. reflexivity.
  - destruct (rename_missing_source_aborts h5_getitem "run_0001.h5" gap_in_frib []
                0 2) as [_ Hfrib].
    + reflexivity.
    + reflexivity.
    + destruct (Hfrib (mkWorld gap_in_frib
                         [MsgFixingRun "run_0001.h5"; MsgCheckingGet])
                  (delete (evt_key 2 "_1903") (frib_events 1 3))
                  gap_in_frib_left (KeyError "evt0_1903") gap_in_frib_done
                  [("evt2_header", "evt1_header"); ("evt3_1903", "evt2_1903");
                   ("evt3_header", "evt2_header")]
                  "evt2_1903" "evt1_1903") as [seen Hseen].
      * reflexivity.
      * reflexivity.
      * vm_compute. discriminate.
      * left. vm_compute. reflexivity.
      * vm_compute. reflexivity.
      * vm_compute. reflexivity.
      * vm_compute. reflexivity.
      * exists seen. split; [exact Hseen|exact gap_in_frib_left_lookup].
Defined.

Section Probe.
Context {D : Type} (getitem : Group D → string → result D).

(** C10.  Whatever exception opening [evt0_1903] raises, or opening
    [evt{event_range}_1903] after [evt0_1903] has opened, the repair of a
    frib/evt group that has entries goes on to the shift by one, from the
    world the probe left (which has printed at most that the start looks
    fine); and an exception that the repair of the frib stream raises is
    the exception of one of the renames of the shift, never the one of the
    probe. *)
Theorem probe_exception_falls_through (path : string) (event_range : Z)
    (w : World D) (data : Group D) (e : exn) :
  frib (file w) = Some (Some data) →
  size data ≠ 0%nat →
  getitem data "evt0_1903" = Raise e
    ∨ (∃ d0, getitem data "evt0_1903" = OK d0
             ∧ getitem data (evt_key event_range "_1903") = Raise e) →
  (∃ seen : list message,
     (seen = [] ∨ seen = [MsgStartOk path])
     ∧ frib_repair getitem path event_range w
       = frib_shift path HFribEvt event_range
           (mkWorld (file w) (stdout w ++ MsgCheckingFrib :: seen)))
  ∧ (∀ e' w', frib_repair getitem path event_range w = (Raise e', w') →
       ∃ data', run_renames data (frib_schedule event_range) = (Raise e', data')).
Proof.
  intros Hfrib Hsize Hprobe.
  assert (deref HFribEvt (file w) = Some data) as Hd
    by (cbn [deref]; by rewrite Hfrib).
  destruct (frib_repair_probe_fails getitem path event_range w data e
              Hd Hsize Hprobe) as (seen & Hseen & Heq).
  split; [by exists seen|].
  intros e' w'. rewrite Heq, (frib_shift_run _ _ (mkWorld (file w) _) data Hd).
  destruct (run_renames data _) as [[[]|e1] data']; [done|].
  intros [= <- _]. by exists data'.
Qed.

End Probe.

(** With an accessor that cannot open [evt0_1903], a stream that is
    indexed as it should be gets the shift all the same. *)
Lemma probe_exception_falls_through_example :
  frib_repair unreadable "run_0001.h5" 2 (mkWorld indexed_file [])
  = frib_shift "run_0001.h5" HFribEvt 2 (mkWorld indexed_file [MsgCheckingFrib])
  ∧ (frib_repair unreadable "run_0001.h5" 2 (mkWorld indexed_file [])).1
    = Raise (ValueError (DestExists "evt0_1903")).
Proof.
  destruct (probe_exception_falls_through unreadable "run_0001.h5" 2
              (mkWorld indexed_file []) (frib_events 0 2)
              (OtherError "OSError")) as [(seen & Hseen & Heq) _].
  - reflexivity.
  - vm_compute. discriminate.
  - left. reflexivity.
  - split; vm_compute; reflexivity.
Defined.

(** * Further properties *)

(** ** Names of run files *)

Lemma pretty_N_go_nonempty (x : N) (s : string) :
  s ≠ "" → pretty_N_go x s ≠ "".
Proof.
  revert s. induction (N.lt_wf_0 x) as [x _ IH]; intros s Hs.
  assert (x = 0 ∨ 0 < x)%N as [->|Hx] by lia.
  - by rewrite pretty_N_go_0.
  - rewrite pretty_N_go_step by done. apply IH; [by apply N.div_lt|done].
Qed.

(** The digits of a positive number do not start with a zero. *)
Lemma pretty_N_go_head (x : N) (s : string) (c : ascii) (s' : string) :
  (0 < x)%N → pretty_N_go x s = String c s' → c ≠ "0"%char.
Proof.
  revert s. induction (N.lt_wf_0 x) as [x _ IH]; intros s Hx.
  rewrite pretty_N_go_step by done.
  destruct (N.eq_0_gt_0_cases (x `div` 10)) as [Hd|Hd].
  - rewrite Hd, pretty_N_go_0. intros [= <- _].
    apply N.div_small_iff in Hd; [|done].
    rewrite N.mod_small by done.
    assert (x = 1 ∨ x = 2 ∨ x = 3 ∨ x = 4 ∨ x = 5 ∨ x = 6
            ∨ x = 7 ∨ x = 8 ∨ x = 9)%N as Hc by lia.
    by destruct Hc as [->|[->|[->|[->|[->|[->|[->|[->| ->]]]]]]]].
  - apply IH; [by apply N.div_lt|done].
Qed.

Lemma strip_zeros_zeros (k : nat) (s : string) :
  strip_zeros (zeros k +:+ s) = strip_zeros s.
Proof. induction k as [|k IH]; [done|]. by simpl. Qed.

Lemma strip_zeros_pretty (x : N) :
  strip_zeros (pretty x) = if decide (x = 0%N) then "" else pretty x.
Proof.
  unfold pretty, pretty_N. case_decide as Hx; [done|].
  destruct (pretty_N_go x "") as [|c s'] eqn:Hgo; [done|].
  simpl. rewrite decide_False; [done|].
  apply (pretty_N_go_head x "" c s'); [lia|done].
Qed.

Lemma pretty_N_nonempty (x : N) : pretty x ≠ "".
Proof.
  unfold pretty, pretty_N. case_decide as Hx; [done|].
  assert (0 < x)%N as Hpos by lia.
  rewrite pretty_N_go_step by done. by apply pretty_N_go_nonempty.
Qed.

Lemma zero_fill_inj (width : nat) (x y : N) :
  zero_fill width (pretty x) = zero_fill width (pretty y) → x = y.
Proof.
  unfold zero_fill. intros Heq. apply (f_equal strip_zeros) in Heq.
  rewrite !strip_zeros_zeros, !strip_zeros_pretty in Heq.
  repeat case_decide; subst; try done.
  - by destruct (pretty_N_nonempty y).
  - by destruct (pretty_N_nonempty x).
  - by apply (inj pretty).
Qed.

Lemma pretty_Z_of_N (x : N) : pretty (Z.of_N x) = pretty x.
Proof. by destruct x. Qed.

(** A padded number that is not negative does not start with a minus
    sign. *)
Lemma zero_fill_no_sign (width : nat) (x : N) (s : string) :
  zero_fill width (pretty x) ≠ "-" +:+ s.
Proof.
  unfold zero_fill.
  destruct (width - String.length (pretty x))%nat as [|k]; simpl; [|done].
  unfold pretty, pretty_N. case_decide; [done|].
  by apply pretty_N_go_ne_dash.
Qed.

Lemma format_04d_inj (run1 run2 : Z) :
  format_04d run1 = format_04d run2 → run1 = run2.
Proof.
  assert (∀ p q : positive,
            "-" +:+ zero_fill 3 (pretty (Z.pos p))
            = "-" +:+ zero_fill 3 (pretty (Z.pos q)) → p = q) as Hneg.
  { intros p q Heq. apply (inj (String.app "-")) in Heq.
    change (pretty (Z.pos p)) with (pretty (N.pos p)) in Heq.
    change (pretty (Z.pos q)) with (pretty (N.pos q)) in Heq.
    apply zero_fill_inj in Heq. congruence. }
  assert (∀ (x y : N), zero_fill 4 (pretty (Z.of_N x))
                      = zero_fill 4 (pretty (Z.of_N y)) → x = y) as Hpos.
  { intros x y. rewrite !pretty_Z_of_N. apply zero_fill_inj. }
  assert (∀ (x : N) (q : positive),
            zero_fill 4 (pretty (Z.of_N x))
            ≠ "-" +:+ zero_fill 3 (pretty (Z.pos q))) as Hmix.
  { intros x q. rewrite pretty_Z_of_N. apply zero_fill_no_sign. }
  destruct run1 as [|p|p], run2 as [|q|q]; unfold format_04d; intros Heq.
  - done.
  - by apply (Hpos 0%N (N.pos q)) in Heq.
  - by destruct (Hmix 0%N q).
  - by apply (Hpos (N.pos p) 0%N) in Heq.
  - apply (Hpos (N.pos p) (N.pos q)) in Heq. congruence.
  - by destruct (Hmix (N.pos p) q).
  - by destruct (Hmix 0%N p).
  - by destruct (Hmix (N.pos q) p).
  - apply Hneg in Heq. congruence.
Qed.

(** X1.  Two different run numbers never give the same file name: the
    padding of [f"run_{run:04d}.h5"] loses nothing, for numbers of any size
    and sign. *)
Theorem run_file_name_distinct (run1 run2 : Z) :
  run1 ≠ run2 → run_file_name run1 ≠ run_file_name run2.
Proof.
  unfold run_file_name. intros Hne Heq. apply Hne.
  apply (inj (String.app "run_")) in Heq.
  apply string_app_inj_r in Heq. by apply format_04d_inj.
Qed.

(** Runs 7 and -7, whose names differ by the sign only. *)
Lemma run_file_name_distinct_example :
  run_file_name 7 = "run_0007.h5"
  ∧ run_file_name (-7) = "run_-007.h5"
  ∧ run_file_name 7 ≠ run_file_name (-7).
Proof.
  split; [vm_compute; reflexivity|]. split; [vm_compute; reflexivity|].
  apply (run_file_name_distinct 7 (-7)). lia.
Defined.

(** ** The helper that nothing calls *)

Section DataOnly.
Context {D : Type}.
Implicit Types (w : World D) (g : Group D).

Lemma one_schedule_S (a : Z) (s : string) (n : nat) :
  one_schedule a s (Z.of_nat (S n))
  = one_schedule a s (Z.of_nat n)
    ++ [(evt_key (a + Z.of_nat n) s, evt_key (Z.of_nat n) s)].
Proof.
  unfold one_schedule. rewrite seqZ_S, fmap_app. simpl.
  by rewrite Z.add_0_l.
Qed.

Lemma one_schedule_runs (a : Z) (s : string) (n : nat) g :
  0 < a ∨ a + Z.of_nat n ≤ 0 →
  (∀ k, 0 ≤ k < Z.of_nat n → is_Some (g !! evt_key (a + k) s)) →
  (∀ k, 0 ≤ k < Z.of_nat n → ¬ (a ≤ k < a + Z.of_nat n) →
        g !! evt_key k s = None) →
  ∃ g', run_renames g (one_schedule a s (Z.of_nat n)) = (OK tt, g')
        ∧ shifted a s (Z.of_nat n) g g'
        ∧ ∀ key : string,
            (∀ k, 0 ≤ k < Z.of_nat n ∨ a ≤ k < a + Z.of_nat n →
                  key ≠ evt_key k s) →
            g' !! key = g !! key.
Proof.
  induction n as [|n IH]; intros Ha Hsrc Htgt.
  { exists g. split; [done|]. repeat split; intros; try lia; done. }
  destruct IH as (gn & Hrun & [Hs Hf] & Hu).
  { lia. }
  { intros k Hk. apply Hsrc. lia. }
  { intros k Hk Hout. apply Htgt; lia. }
  destruct (Hsrc (Z.of_nat n)) as [d Hd]; [lia|].
  assert (gn !! evt_key (a + Z.of_nat n) s = Some d) as Ho.
  { rewrite Hu; [done|]. intros k Hk E. apply evt_key_inj in E. lia. }
  assert (gn !! evt_key (Z.of_nat n) s = None) as Hn.
  { destruct (decide (a ≤ Z.of_nat n < a + Z.of_nat n)) as [Hin|Hout].
    - apply Hf; lia.
    - rewrite Hu; [apply Htgt; lia|].
      intros k Hk E. apply evt_key_inj in E. lia. }
  set (g1 := <[evt_key (Z.of_nat n) s := d]>
               (delete (evt_key (a + Z.of_nat n) s) gn)).
  assert (∀ key, g1 !! key
            = if decide (key = evt_key (Z.of_nat n) s) then Some d
              else if decide (key = evt_key (a + Z.of_nat n) s) then None
              else gn !! key) as Hg1.
  { intros key. unfold g1. rewrite lookup_insert, lookup_delete.
    repeat case_decide; congruence. }
  exists g1. split; [|repeat split].
  - rewrite one_schedule_S, run_renames_app, Hrun. simpl.
    by rewrite (h5_move_OK gn _ _ d Ho Hn).
  - intros k Hk. rewrite Hg1. repeat case_decide;
      repeat match goal with
        | H : evt_key _ s = evt_key _ s |- _ => apply evt_key_inj in H
        end; subst;
      first [done | by rewrite ?Hd | exfalso; lia | idtac].
    apply Hs. assert (k ≠ Z.of_nat n) by congruence. lia.
  - intros k Hk Hout. rewrite Hg1. repeat case_decide;
      repeat match goal with
        | H : evt_key _ s = evt_key _ s |- _ => apply evt_key_inj in H
        end; subst;
      first [done | exfalso; lia | idtac].
    apply Hf; [|lia].
    assert (k ≠ a + Z.of_nat n) by congruence. lia.
  - intros key Hkey. rewrite Hg1.
    rewrite !decide_False by (apply Hkey; lia).
    apply Hu. intros k Hk. apply Hkey. lia.
Qed.

(** A loop whose body is one rename performs the renames of its list. *)
Lemma for_one_move {A} (h : handle) (o n : A → string)
    (body : A → M D unit) (xs : list A) :
  (∀ x w, body x w = move h (o x) (n x) w) →
  ∀ w g, deref h (file w) = Some g →
    for_ xs body w
    = let '(r, g') := run_renames g ((λ x, (o x, n x)) <$> xs) in
      (r, mkWorld (store h g' (file w)) (stdout w)).
Proof.
  intros Hbody. induction xs as [|x xs IH]; intros w g Hg.
  { simpl. rewrite (store_deref _ _ _ Hg). by destruct w. }
  rewrite fmap_cons. cbn [for_ run_renames].
  rewrite bind_run, Hbody. unfold move. rewrite Hg.
  destruct (h5_move g (o x) (n x)) as [g1|e1].
  2: { rewrite (store_deref _ _ _ Hg). by destruct w. }
  rewrite (IH _ g1) by apply deref_store. cbn [file stdout].
  destruct (run_renames g1 _) as [r g']. by rewrite store_store.
Qed.

Lemma data_schedule_one (event_min event_max : Z) :
  data_schedule event_min event_max
  = one_schedule event_min "_data" (event_max - event_min).
Proof.
  unfold data_schedule, one_schedule, range. rewrite enumerate_seqZ.
  by rewrite <-list_fmap_compose.
Qed.

(** X2.  The helper renumbers the data entries of the events event_min to
    event_max - 1 and stops there: on a get group that holds them, with
    event_min positive and the names it moves to free, it completes, the
    data entry of event [event_min + idx] is then under [idx], the data
    entry of event event_max is still under event_max, and no header has
    moved. *)
Theorem helper_leaves_last_event (w : World D) (g : Group D)
    (event_min event_max : Z) :
  get (file w) = Some g →
  0 < event_min →
  event_min ≤ event_max →
  (∀ n, event_min ≤ n < event_max → is_Some (g !! evt_key n "_data")) →
  (∀ n, 0 ≤ n < event_max - event_min → n < event_min →
        g !! evt_key n "_data" = None) →
  ∃ g' : Group D,
    fix_get_event_numbers HGet event_min event_max w
    = (OK tt, mkWorld (store HGet g' (file w)) (stdout w))
    ∧ (∀ idx, 0 ≤ idx < event_max - event_min →
         g' !! evt_key idx "_data" = g !! evt_key (event_min + idx) "_data")
    ∧ g' !! evt_key event_max "_data" = g !! evt_key event_max "_data"
    ∧ (∀ n, g' !! evt_key n "_header" = g !! evt_key n "_header").
Proof.
  intros Hg Hpos Hle Hsrc Htgt.
  destruct (one_schedule_runs event_min "_data"
              (Z.to_nat (event_max - event_min)) g)
    as (g' & Hrun & [Hs _] & Hu).
  { lia. }
  { intros k Hk. apply Hsrc. lia. }
  { intros k Hk Hout. apply Htgt; lia. }
  rewrite Z2Nat.id in * by lia.
  rewrite <-data_schedule_one in Hrun.
  exists g'. split; [|split; [|split]].
  - unfold fix_get_event_numbers.
    assert (∀ (ie : Z * Z) (w' : World D),
              (let '(idx, event) := ie in
               move HGet (evt_key event "_data") (evt_key idx "_data")) w'
              = move HGet (evt_key ie.2 "_data") (evt_key ie.1 "_data") w')
      as Hbody by (by intros [idx event] w').
    rewrite (for_one_move HGet (λ ie : Z * Z, evt_key ie.2 "_data")
               (λ ie : Z * Z, evt_key ie.1 "_data") _ _ Hbody w g Hg).
    fold (data_schedule event_min event_max). by rewrite Hrun.
  - intros idx Hidx. by apply Hs.
  - apply Hu. intros k Hk E. apply evt_key_inj in E. lia.
  - intros n. apply Hu. intros k Hk E.
    by destruct (data_header_ne _ _ (eq_sym E)).
Qed.

End DataOnly.

(** Events 5 to 7: events 5 and 6 go to 0 and 1, event 7 stays, and the
    headers stay under 5, 6 and 7. *)
Lemma helper_leaves_last_event_example :
  ∃ g' : Group Z,
    fix_get_event_numbers HGet 5 7 (mkWorld offset_only_file [])
    = (OK tt, mkWorld (store HGet g' offset_only_file) [])
    ∧ (∀ idx, 0 ≤ idx < 7 - 5 →
         g' !! evt_key idx "_data" = get_events 5 7 !! evt_key (5 + idx) "_data")
    ∧ g' !! evt_key 7 "_data" = get_events 5 7 !! evt_key 7 "_data"
    ∧ (∀ n, g' !! evt_key n "_header" = get_events 5 7 !! evt_key n "_header").
Proof.
  apply (helper_leaves_last_event (mkWorld offset_only_file []) (get_events 5 7)).
  - reflexivity.
  - lia.
  - lia.
  - intros n Hn. assert (n = 5 ∨ n = 6) as Hc by lia.
    destruct Hc as [->| ->]; vm_compute; eauto.
  - intros n Hn Hlt. assert (n = 0 ∨ n = 1) as Hc by lia.
    destruct Hc as [->| ->]; reflexivity.
Defined.

(** ** What the repair keeps *)

Section Keeps.
Context {D : Type} (R : Container D → Container D → Prop).
Context `{!Reflexive R, !Transitive R}.
Implicit Types (w : World D).

Lemma keeps_mret {A} (a : A) : keeps R (mret a).
Proof. intros w. simpl. reflexivity. Qed.

Lemma keeps_bind {A B} (m : M D A) (k : A → M D B) :
  keeps R m → (∀ a, keeps R (k a)) → keeps R (m ≫= k).
Proof.
  intros Hm Hk w. rewrite bind_run. specialize (Hm w).
  destruct (m w) as [[a|e] w1]; simpl in *; [|done].
  etrans; [exact Hm|apply Hk].
Qed.

Lemma keeps_print (msg : message) : keeps R (print msg).
Proof. intros w. simpl. reflexivity. Qed.

Lemma keeps_len_keys (h : handle) : keeps R (len_keys h).
Proof. intros w. unfold len_keys. destruct (deref _ _); simpl; reflexivity. Qed.

Lemma keeps_read getitem (h : handle) (key : string) :
  keeps R (read getitem h key).
Proof. intros w. unfold read. destruct (deref _ _); simpl; reflexivity. Qed.

Lemma keeps_meta_get (i : nat) : keeps R (meta_get i).
Proof. intros w. unfold meta_get. destruct (_ !! i); simpl; reflexivity. Qed.

Lemma keeps_attempt {A} (m : M D A) : keeps R m → keeps R (attempt m).
Proof. intros Hm w. unfold attempt. specialize (Hm w). by destruct (m w). Qed.

Lemma keeps_for {A} (xs : list A) (body : A → M D unit) :
  (∀ x, keeps R (body x)) → keeps R (for_ xs body).
Proof.
  intros Hbody. induction xs as [|x xs IH]; simpl.
  - apply keeps_mret.
  - apply keeps_bind; auto.
Qed.

Lemma keeps_open_bind {B} (h : handle) (k : handle → M D B) :
  keeps R (k h) → keeps R (open_group h ≫= k).
Proof.
  intros Hk w. rewrite bind_run. unfold open_group.
  destruct (deref h (file w)); [apply Hk|simpl; reflexivity].
Qed.

Lemma keeps_attempt_open_bind {B} (h : handle) (k : result handle → M D B) :
  keeps R (k (OK h)) → (∀ e, keeps R (k (Raise e))) →
  keeps R (attempt (open_group h) ≫= k).
Proof.
  intros Hk He w. rewrite attempt_open_bind.
  destruct (deref h (file w)); [apply Hk|apply He].
Qed.

Lemma keeps_move (h : handle) (old_key new_key : string) :
  (∀ c g g', deref h c = Some g → h5_move g old_key new_key = OK g' →
             R c (store h g' c)) →
  keeps R (move h old_key new_key).
Proof.
  intros HR w. unfold move.
  destruct (deref h (file w)) as [g|] eqn:Hg; [|simpl; reflexivity].
  destruct (h5_move g old_key new_key) as [g'|e] eqn:Hm; simpl;
    [by apply (HR _ g)|reflexivity].
Qed.

Lemma keeps_meta_set (i : nat) (v : Z) :
  (∀ c l, R c (mkContainer l (get c) (frib c))) → keeps R (meta_set i v).
Proof.
  intros HR w. unfold meta_set. case_decide; simpl; [apply HR|reflexivity].
Qed.

(** A relation that holds across a rewrite of the metadata, across a
    rename between two names of the get group under [_data] or under
    [_header], and across a rename between two names of frib/evt under
    [_1903] or under [_header], holds between the file before and the file
    after [fix_event_numbers]. *)
Lemma fix_event_numbers_keeps (getitem : Group D → string → result D)
    (path : string) :
  (∀ c l, R c (mkContainer l (get c) (frib c))) →
  (∀ c g g' (a b : Z) (s : string),
     s = "_data" ∨ s = "_header" → deref HGet c = Some g →
     h5_move g (evt_key a s) (evt_key b s) = OK g' → R c (store HGet g' c)) →
  (∀ c g g' (a b : Z) (s : string),
     s = "_1903" ∨ s = "_header" → deref HFribEvt c = Some g →
     h5_move g (evt_key a s) (evt_key b s) = OK g' →
     R c (store HFribEvt g' c)) →
  keeps R (fix_event_numbers getitem path).
Proof.
  intros Hmeta Hget Hfrib. unfold fix_event_numbers.
  apply keeps_bind; [apply keeps_print|intros _].
  apply keeps_bind; [apply keeps_meta_get|intros event_min].
  apply keeps_bind; [apply keeps_meta_get|intros event_max].
  apply keeps_bind; [|intros _].
  - unfold get_repair. apply keeps_bind; [apply keeps_print|intros _].
    case_decide; [|apply keeps_mret].
    apply keeps_bind; [apply keeps_print|intros _].
    apply keeps_open_bind.
    apply keeps_bind.
    { apply keeps_for. intros [idx event]. unfold get_body.
      apply keeps_bind; [|intros _]; apply keeps_move; intros c g g' Hg Hm.
      - apply (Hget c g g' event idx "_data"); auto.
      - apply (Hget c g g' event idx "_header"); auto. }
    intros _. apply keeps_bind; [by apply keeps_meta_set|intros _].
    apply keeps_bind; [by apply keeps_meta_set|intros _].
    apply keeps_print.
  - unfold frib_repair.
    apply keeps_bind; [apply keeps_print|intros _].
    apply keeps_attempt_open_bind; [|intros e; apply keeps_print].
    apply keeps_bind; [apply keeps_len_keys|intros n].
    case_decide; [apply keeps_print|].
    apply keeps_bind.
    { apply keeps_attempt. unfold frib_probe.
      repeat (apply keeps_bind; [|intros ?]);
        first [apply keeps_read | apply keeps_print]. }
    intros [[]|e]; [apply keeps_mret|].
    unfold frib_shift.
    apply keeps_bind; [apply keeps_print|intros _].
    apply keeps_bind; [|intros _; apply keeps_print].
    apply keeps_for. intros event. unfold frib_body.
    apply keeps_bind; [|intros _]; apply keeps_move; intros c g g' Hg Hm.
    + apply (Hfrib c g g' (event + 1) event "_1903"); auto.
    + apply (Hfrib c g g' (event + 1) event "_header"); auto.
Qed.

End Keeps.

Section Datasets.
Context {D : Type}.
Implicit Types (g : Group D) (c : Container D).

Lemma h5_move_same_datasets g (old_key new_key : string) g' :
  h5_move g old_key new_key = OK g' → same_datasets g g'.
Proof.
  intros Hm.
  destruct (h5_move_inv _ _ _ _ Hm) as [[_ ->]|(d & Ho & Hn & ->)];
    [by unfold same_datasets|].
  unfold same_datasets.
  rewrite map_to_list_insert by (by rewrite lookup_delete_ne by congruence).
  rewrite <-(map_to_list_delete g old_key d Ho). done.
Qed.

Global Instance same_datasets_refl : Reflexive (same_datasets (D := D)).
Proof. intros g. by unfold same_datasets. Qed.

Global Instance same_datasets_trans : Transitive (same_datasets (D := D)).
Proof. intros g1 g2 g3 H1 H2. unfold same_datasets in *. by etrans. Qed.

Global Instance same_file_datasets_refl :
  Reflexive (same_file_datasets (D := D)).
Proof.
  intros [m gg fg]. split; simpl.
  - destruct gg; by constructor.
  - destruct fg as [[?|]|]; repeat constructor; done.
Qed.

Global Instance same_file_datasets_trans :
  Transitive (same_file_datasets (D := D)).
Proof.
  intros c1 c2 c3 [Hg1 Hf1] [Hg2 Hf2]. split.
  - destruct Hg1; inversion Hg2; subst; constructor. by etrans.
  - destruct Hf1 as [x y Hxy|]; inversion Hf2 as [? z Hyz|]; subst;
      constructor.
    destruct Hxy; inversion Hyz; subst; constructor. by etrans.
Qed.

(** X7.  Whatever the file and whether the repair returns or raises, the
    datasets of the get group and of frib/evt after [fix_event_numbers] are
    those before, up to their order: a rename loses no dataset, makes no
    copy and alters none, and a group that was missing is still missing. *)
Theorem repair_keeps_datasets (getitem : Group D → string → result D)
    (path : string) (w : World D) :
  same_file_datasets (file w) (file (fix_event_numbers getitem path w).2).
Proof.
  apply (fix_event_numbers_keeps same_file_datasets).
  - intros c l. split; simpl; reflexivity.
  - intros c g g' a b s _ Hg Hm. simpl in Hg. split; simpl.
    + rewrite Hg. constructor. by eapply h5_move_same_datasets.
    + reflexivity.
  - intros c g g' a b s _ Hg Hm. split; simpl; [reflexivity|].
    simpl in Hg. destruct (frib c) as [[g0|]|]; simplify_eq.
    repeat constructor. by eapply h5_move_same_datasets.
Qed.

Global Instance same_other_entries_refl :
  Reflexive (same_other_entries (D := D)).
Proof. by intros c. Qed.

Global Instance same_other_entries_trans :
  Transitive (same_other_entries (D := D)).
Proof.
  intros c1 c2 c3 [Hg1 Hf1] [Hg2 Hf2]. split; intros key Hkey.
  - by rewrite Hg1, Hg2.
  - by rewrite Hf1, Hf2.
Qed.

Lemma h5_move_other_entries g (a b : Z) (s : string) g' (key : string) :
  h5_move g (evt_key a s) (evt_key b s) = OK g' →
  (∀ n, key ≠ evt_key n s) → g' !! key = g !! key.
Proof.
  intros Hm Hkey.
  destruct (h5_move_inv _ _ _ _ Hm) as [[_ ->]|(d & Ho & Hn & ->)]; [done|].
  rewrite lookup_insert_ne, lookup_delete_ne; [done|..];
    intros E; by destruct (Hkey _ (eq_sym E)).
Qed.

(** X8.  Whatever the file and whether the repair returns or raises, an
    entry of the get group whose name is not [evt{n}_data] or
    [evt{n}_header], and an entry of frib/evt whose name is not
    [evt{n}_1903] or [evt{n}_header], is after [fix_event_numbers] what it
    was before. *)
Theorem repair_keeps_other_entries (getitem : Group D → string → result D)
    (path : string) (w : World D) :
  same_other_entries (file w) (file (fix_event_numbers getitem path w).2).
Proof.
  apply (fix_event_numbers_keeps same_other_entries).
  - intros c l. by split.
  - intros c g g' a b s Hs Hg Hm. simpl in Hg. split; intros key Hkey;
      [|done].
    simpl. rewrite Hg. simpl.
    apply eq_sym, (h5_move_other_entries g a b s g' key Hm).
    intros n. destruct Hs as [-> | ->]; apply Hkey.
  - intros c g g' a b s Hs Hg Hm. split; intros key Hkey; [done|].
    rewrite Hg, deref_store. simpl.
    apply eq_sym, (h5_move_other_entries g a b s g' key Hm).
    intros n. destruct Hs as [-> | ->]; apply Hkey.
Qed.

End Datasets.

(** ** Metadata and renames *)

Section MetadataAndRenames.
Context {D : Type} (getitem : Group D → string → result D).
Implicit Types (w : World D) (c : Container D) (g data : Group D).

Lemma fix_event_numbers_no_min (path : string) c (out : list message) :
  meta_data c !! 0%nat = None →
  fix_event_numbers getitem path (mkWorld c out)
  = (Raise (IndexError 0), mkWorld c (out ++ [MsgFixingRun path])).
Proof.
  intros H0. unfold fix_event_numbers.
  rewrite print_bind, bind_run. unfold meta_get. cbn [file stdout].
  by rewrite H0.
Qed.

Lemma get_repair_no_group (event_min event_max : Z) c (out : list message) :
  event_min ≠ 0 → get c = None →
  get_repair event_min event_max (mkWorld c out)
  = (Raise (KeyError "get"),
     mkWorld c (out ++ [MsgCheckingGet; MsgGetOffsetDetected])).
Proof.
  intros Hne Hg. unfold get_repair.
  rewrite print_bind, decide_True by done.
  rewrite print_bind, bind_run. unfold open_group. cbn [file stdout deref].
  rewrite Hg. by rewrite <-app_assoc.
Qed.

Lemma frib_schedule_nonpos (event_range : Z) :
  event_range + 1 ≤ 0 → frib_schedule event_range = [].
Proof.
  intros HR. by rewrite frib_schedule_shift, shift_schedule_nonpos.
Qed.

Lemma get_schedule_nonpos (event_min event_max : Z) :
  event_max + 1 ≤ event_min → get_schedule event_min event_max = [].
Proof.
  intros HR. rewrite get_schedule_shift, shift_schedule_nonpos; [done|lia].
Qed.

(** With an empty range the repair of the frib stream returns and leaves
    the file as it is, whatever the probe answers. *)
Lemma frib_repair_empty_range (path : string) (event_range : Z) w :
  event_range + 1 ≤ 0 →
  ∃ out', frib_repair getitem path event_range w = (OK tt, mkWorld (file w) out').
Proof.
  intros HR. destruct (deref HFribEvt (file w)) as [data|] eqn:Hd.
  2: { eexists. by apply frib_repair_absent. }
  destruct (decide (size data = 0%nat)) as [Hsize|Hsize].
  { eexists. by apply (frib_repair_empty _ _ _ _ data). }
  assert (∀ w', deref HFribEvt (file w') = Some data → file w' = file w →
            ∃ out', frib_shift path HFribEvt event_range w'
                    = (OK tt, mkWorld (file w) out')) as Hshift.
  { intros w' Hd' Hfile. rewrite (frib_shift_run _ _ _ data Hd').
    rewrite frib_schedule_nonpos by done. cbn [run_renames].
    rewrite (store_deref _ _ _ Hd'), Hfile. by eexists. }
  destruct (getitem data "evt0_1903") as [d0|e] eqn:H0.
  - destruct (getitem data (evt_key event_range "_1903")) as [d1|e] eqn:H1.
    + eexists. by apply (frib_repair_skip _ _ _ _ data d0 d1).
    + rewrite (frib_repair_end_fails _ _ _ _ data d0 e) by done.
      by apply Hshift.
  - rewrite (frib_repair_start_fails _ _ _ _ data e) by done.
    by apply Hshift.
Qed.

(** X9.  [fix_event_numbers] rewrites the metadata only after every rename
    of the get group has been performed: if the metadata at the end is not
    the metadata at the start, then event_min was not 0, all the renames of
    the offset repair have succeeded on the get group, the get group at the
    end is their result, and the metadata has 0 at position 0 and
    [event_max - event_min] at position 2. *)
Theorem metadata_rewritten_after_renames (path : string) (c : Container D)
    (out : list message) :
  meta_data (file (fix_event_numbers getitem path (mkWorld c out)).2)
  ≠ meta_data c →
  ∃ (event_min event_max : Z) (g g' : Group D),
    meta_data c !! 0%nat = Some event_min
    ∧ meta_data c !! 2%nat = Some event_max
    ∧ event_min ≠ 0
    ∧ get c = Some g
    ∧ run_renames g (get_schedule event_min event_max) = (OK tt, g')
    ∧ get (file (fix_event_numbers getitem path (mkWorld c out)).2) = Some g'
    ∧ meta_data (file (fix_event_numbers getitem path (mkWorld c out)).2)
      = <[2%nat := event_max - event_min]> (<[0%nat := 0]> (meta_data c)).
Proof.
  destruct (meta_data c !! 0%nat) as [event_min|] eqn:Hm0.
  2: { by rewrite fix_event_numbers_no_min. }
  destruct (meta_data c !! 2%nat) as [event_max|] eqn:Hm2.
  2: { by rewrite (fix_event_numbers_short getitem path c out _ Hm0 Hm2). }
  rewrite (fix_event_numbers_run getitem path c out _ _ Hm0 Hm2), bind_run.
  destruct (decide (event_min = 0)) as [->|Hne].
  { rewrite get_repair_skip.
    by rewrite (frib_repair_frame getitem meta_data). }
  destruct (get c) as [g|] eqn:Hg.
  2: { by rewrite get_repair_no_group. }
  assert (2 < length (meta_data c))%nat as Hlen
    by (apply lookup_lt_Some in Hm2; lia).
  rewrite (get_repair_run event_min event_max c _ g Hne Hg Hlen).
  destruct (run_renames g (get_schedule event_min event_max))
    as [[[]|e] g'] eqn:Hrun; [|done].
  intros _. exists event_min, event_max, g, g'.
  rewrite (frib_repair_frame getitem get) by done.
  rewrite (frib_repair_frame getitem meta_data) by done.
  by repeat split.
Qed.

(** X10.  With event_max below event_min and event_min not 0, on a file
    that has a get group, [fix_event_numbers] renames nothing in either
    group and returns, and yet rewrites the metadata: position 2 then
    holds [event_max - event_min], which is negative. *)
Theorem empty_range_rewrites_metadata_only (path : string) (c : Container D)
    (out : list message) (event_min event_max : Z) (g : Group D) :
  meta_data c !! 0%nat = Some event_min →
  meta_data c !! 2%nat = Some event_max →
  event_max < event_min →
  event_min ≠ 0 →
  get c = Some g →
  ∃ out' : list message,
    fix_event_numbers getitem path (mkWorld c out)
    = (OK tt,
       mkWorld (mkContainer
                  (<[2%nat := event_max - event_min]>
                     (<[0%nat := 0]> (meta_data c)))
                  (Some g) (frib c))
               out')
    ∧ event_max - event_min < 0.
Proof.
  intros Hm0 Hm2 Hlt Hne Hg.
  assert (2 < length (meta_data c))%nat as Hlen
    by (apply lookup_lt_Some in Hm2; lia).
  rewrite (fix_event_numbers_run getitem path c out _ _ Hm0 Hm2), bind_run.
  rewrite (get_repair_run event_min event_max c _ g Hne Hg Hlen).
  rewrite get_schedule_nonpos by lia. cbn [run_renames].
  destruct (frib_repair_empty_range path (event_max - event_min)
              (mkWorld (mkContainer
                          (<[2%nat := event_max - event_min]>
                             (<[0%nat := 0]> (meta_data c)))
                          (Some g) (frib c))
                       ((out ++ [MsgFixingRun path])
                          ++ [MsgCheckingGet; MsgGetOffsetDetected;
                              MsgGetRepaired])))
    as [out' Hfrib]; [lia|].
  exists out'. split; [exact Hfrib|lia].
Qed.

End MetadataAndRenames.

(** [offset_file]: the metadata changes, so all renames have been done. *)
Lemma metadata_rewritten_after_renames_example :
  ∃ (event_min event_max : Z) (g g' : Group Z),
    meta_data offset_file !! 0%nat = Some event_min
    ∧ meta_data offset_file !! 2%nat = Some event_max
    ∧ event_min ≠ 0
    ∧ get offset_file = Some g
    ∧ run_renames g (get_schedule event_min event_max) = (OK tt, g')
    ∧ get (file (fix_event_numbers h5_getitem "run_0001.h5"
                   (mkWorld offset_file [])).2) = Some g'
    ∧ meta_data (file (fix_event_numbers h5_getitem "run_0001.h5"
                         (mkWorld offset_file [])).2)
      = <[2%nat := event_max - event_min]>
          (<[0%nat := 0]> (meta_data offset_file)).
Proof.
  apply (metadata_rewritten_after_renames h5_getitem "run_0001.h5"
           offset_file []).
  vm_compute. discriminate.
Defined.

(** Events 5 to 7 with metadata [5, _, 3]: nothing is renamed, and the
    metadata becomes [0, _, -2]. *)
Lemma empty_range_rewrites_metadata_only_example :
  ∃ out' : list message,
    fix_event_numbers h5_getitem "run_0001.h5" (mkWorld reversed_file [])
    = (OK tt,
       mkWorld (mkContainer (<[2%nat := 3 - 5]> (<[0%nat := 0]> [5; 77; 3]))
                            (Some (get_events 5 7))
                            (Some (Some (frib_events 1 3))))
               out')
    ∧ 3 - 5 < 0.
Proof.
  apply (empty_range_rewrites_metadata_only h5_getitem "run_0001.h5"
           reversed_file [] 5 3 (get_events 5 7)).
  - reflexivity.
  - reflexivity.
  - lia.
  - lia.
  - reflexivity.
Defined.

(** ** A second run of the repair *)

Section SecondRun.
Context {D : Type}.
Implicit Types (w : World D) (c : Container D) (g data : Group D).

(** After the renames of a shift down by a positive amount have all been
    performed, every entry they moved to is there. *)
Lemma shift_schedule_fills (a : Z) (s1 s2 : string) (n : nat) g g' :
  (∀ x y, evt_key x s1 ≠ evt_key y s2) →
  0 < a →
  run_renames g (shift_schedule a s1 s2 (Z.of_nat n)) = (OK tt, g') →
  ∀ k, 0 ≤ k < Z.of_nat n → is_Some (g' !! evt_key k s1).
Proof.
  intros Hsep Ha. revert g'. induction n as [|n IH]; intros g' Hrun k Hk; [lia|].
  rewrite shift_schedule_S, run_renames_app in Hrun.
  destruct (run_renames g (shift_schedule a s1 s2 (Z.of_nat n)))
    as [[[]|e] gn] eqn:Hn; [|done].
  cbn [run_renames] in Hrun.
  destruct (h5_move gn _ _) as [g1|e1] eqn:Hm1; [|done].
  destruct (h5_move g1 _ _) as [g2|e2] eqn:Hm2; [|done].
  injection Hrun as <-.
  apply h5_move_inv_ne in Hm1 as (d1 & _ & _ & ->);
    [|intros E; apply evt_key_inj in E; lia].
  apply h5_move_inv_ne in Hm2 as (d2 & _ & _ & ->);
    [|intros E; apply evt_key_inj in E; lia].
  rewrite lookup_insert_ne by (intros E; by destruct (Hsep _ _ (eq_sym E))).
  rewrite lookup_delete_ne by (intros E; by destruct (Hsep _ _ (eq_sym E))).
  destruct (decide (k = Z.of_nat n)) as [->|Hne].
  - rewrite lookup_insert_eq. by eexists.
  - rewrite lookup_insert_ne by (intros E; apply evt_key_inj in E; lia).
    rewrite lookup_delete_ne by (intros E; apply evt_key_inj in E; lia).
    apply (IH gn); [done|lia].
Qed.

Lemma frib_schedule_fills (event_range : Z) data data' :
  0 ≤ event_range →
  run_renames data (frib_schedule event_range) = (OK tt, data') →
  ∀ k, 0 ≤ k ≤ event_range → is_Some (data' !! evt_key k "_1903").
Proof.
  intros HR Hrun k Hk. rewrite frib_schedule_shift in Hrun.
  rewrite <-(Z2Nat.id (event_range + 1)) in Hrun by lia.
  apply (shift_schedule_fills 1 "_1903" "_header"
           (Z.to_nat (event_range + 1)) data data');
    [apply frib_header_ne|lia|done|lia].
Qed.

(** What a run of [fix_event_numbers] that returns has gone through. *)
Lemma fix_event_numbers_OK (getitem : Group D → string → result D)
    (path : string) c (out : list message) w1 :
  fix_event_numbers getitem path (mkWorld c out) = (OK tt, w1) →
  ∃ (event_min event_max : Z) (wg : World D),
    meta_data c !! 0%nat = Some event_min
    ∧ meta_data c !! 2%nat = Some event_max
    ∧ get_repair event_min event_max (mkWorld c (out ++ [MsgFixingRun path]))
      = (OK tt, wg)
    ∧ frib_repair getitem path (event_max - event_min) wg = (OK tt, w1).
Proof.
  destruct (meta_data c !! 0%nat) as [event_min|] eqn:Hm0.
  2: { by rewrite fix_event_numbers_no_min. }
  destruct (meta_data c !! 2%nat) as [event_max|] eqn:Hm2.
  2: { by rewrite (fix_event_numbers_short getitem path c out _ Hm0 Hm2). }
  rewrite (fix_event_numbers_run getitem path c out _ _ Hm0 Hm2), bind_run.
  destruct (get_repair event_min event_max _) as [[[]|e] wg] eqn:Hget; [|done].
  intros Hfrib. by exists event_min, event_max, wg.
Qed.

(** After a repair of the get group that returns, the metadata says that
    the events run from 0 to [event_max - event_min]. *)
Lemma get_repair_OK (event_min event_max : Z) c (out : list message) wg :
  meta_data c !! 0%nat = Some event_min →
  meta_data c !! 2%nat = Some event_max →
  get_repair event_min event_max (mkWorld c out) = (OK tt, wg) →
  meta_data (file wg) !! 0%nat = Some 0
  ∧ meta_data (file wg) !! 2%nat = Some (event_max - event_min)
  ∧ frib (file wg) = frib c.
Proof.
  intros Hm0 Hm2.
  assert (2 < length (meta_data c))%nat as Hlen
    by (apply lookup_lt_Some in Hm2; lia).
  destruct (decide (event_min = 0)) as [->|Hne].
  { rewrite get_repair_skip. intros [= <-]. cbn [file].
    by rewrite Z.sub_0_r. }
  destruct (get c) as [g|] eqn:Hg.
  2: { by rewrite get_repair_no_group. }
  rewrite (get_repair_run event_min event_max c _ g Hne Hg Hlen).
  destruct (run_renames g _) as [[[]|e] g']; [|done].
  intros [= <-]. cbn [file meta_data frib]. split; [|split; [|done]].
  - rewrite list_lookup_insert_ne by done. apply list_lookup_insert_eq. lia.
  - apply list_lookup_insert_eq. rewrite length_insert. lia.
Qed.

(** A repair of the frib stream that has returned would, run again on the
    file it left, return and leave that file as it is. *)
Lemma frib_repair_stable (path : string) (event_range : Z) w w1 :
  frib_repair h5_getitem path event_range w = (OK tt, w1) →
  ∀ out', ∃ out'',
    frib_repair h5_getitem path event_range (mkWorld (file w1) out')
    = (OK tt, mkWorld (file w1) out'').
Proof.
  intros Hfirst out'.
  destruct (decide (event_range + 1 ≤ 0)) as [HR|HR].
  { apply (frib_repair_empty_range h5_getitem path event_range
             (mkWorld (file w1) out') HR). }
  destruct (deref HFribEvt (file w)) as [data|] eqn:Hd.
  2: { rewrite frib_repair_absent in Hfirst by done.
       injection Hfirst as <-. cbn [file]. eexists.
       exact (frib_repair_absent _ path event_range (mkWorld (file w) out') Hd). }
  destruct (decide (size data = 0%nat)) as [Hsize|Hsize].
  { rewrite (frib_repair_empty _ _ _ _ data) in Hfirst by done.
    injection Hfirst as <-. cbn [file]. eexists.
    exact (frib_repair_empty _ path event_range (mkWorld (file w) out') data
             Hd Hsize). }
  assert (∀ w', deref HFribEvt (file w') = Some data → file w' = file w →
            frib_shift path HFribEvt event_range w' = (OK tt, w1) →
            ∃ out'',
              frib_repair h5_getitem path event_range (mkWorld (file w1) out')
              = (OK tt, mkWorld (file w1) out'')) as Hshift.
  { intros w' Hd' Hfile. rewrite (frib_shift_run _ _ _ data Hd').
    destruct (run_renames data (frib_schedule event_range))
      as [[[]|e] data'] eqn:Hrun; [|done].
    intros [= <-]. cbn [file].
    assert (∀ k, 0 ≤ k ≤ event_range →
              is_Some (data' !! evt_key k "_1903")) as Hfilled
      by (apply (frib_schedule_fills event_range data data'); [lia|done]).
    destruct (Hfilled 0) as [d0 H0]; [lia|].
    destruct (Hfilled event_range) as [d1 H1]; [lia|].
    eexists.
    apply (frib_repair_skip h5_getitem path event_range
             (mkWorld (store HFribEvt data' (file w')) out') data' d0 d1).
    - apply deref_store.
    - apply (size_lookup_ne_0 _ (evt_key 0 "_1903")). by exists d0.
    - unfold h5_getitem. by rewrite evt0_1903_key, H0.
    - unfold h5_getitem. by rewrite H1. }
  destruct (h5_getitem data "evt0_1903") as [d0|e] eqn:H0.
  - destruct (h5_getitem data (evt_key event_range "_1903")) as [d1|e] eqn:H1.
    + rewrite (frib_repair_skip _ _ _ _ data d0 d1) in Hfirst by done.
      injection Hfirst as <-. cbn [file]. eexists.
      exact (frib_repair_skip _ path event_range (mkWorld (file w) out') data
               d0 d1 Hd Hsize H0 H1).
    + rewrite (frib_repair_end_fails _ _ _ _ data d0 e) in Hfirst by done.
      exact (Hshift (mkWorld (file w) _) Hd eq_refl Hfirst).
  - rewrite (frib_repair_start_fails _ _ _ _ data e) in Hfirst by done.
    exact (Hshift (mkWorld (file w) _) Hd eq_refl Hfirst).
Qed.

(** X6.  A run of [fix_event_numbers] that has returned can be repeated:
    on the file it left, the function returns again and leaves the file as
    it is, whatever the first run has repaired. *)
Theorem repair_twice_is_repair_once (path : string) (c : Container D)
    (out : list message) (w1 : World D) :
  fix_event_numbers h5_getitem path (mkWorld c out) = (OK tt, w1) →
  ∀ out' : list message, ∃ out'' : list message,
    fix_event_numbers h5_getitem path (mkWorld (file w1) out')
    = (OK tt, mkWorld (file w1) out'').
Proof.
  intros Hfirst out'.
  destruct (fix_event_numbers_OK _ _ _ _ _ Hfirst)
    as (event_min & event_max & wg & Hm0 & Hm2 & Hget & Hfrib).
  destruct (get_repair_OK _ _ _ _ _ Hm0 Hm2 Hget) as (Hg0 & Hg2 & _).
  pose proof (frib_repair_frame h5_getitem meta_data path
                (event_max - event_min) ltac:(done) wg) as Hmeta.
  rewrite Hfrib in Hmeta. cbn [snd] in Hmeta.
  rewrite <-Hmeta in Hg0, Hg2.
  rewrite (fix_event_numbers_run h5_getitem path (file w1) out' _ _ Hg0 Hg2).
  rewrite bind_run, get_repair_skip, Z.sub_0_r. cbn [file stdout].
  apply (frib_repair_stable path (event_max - event_min) wg w1 Hfrib).
Qed.

End SecondRun.

(** Both defects are repaired by the first run; the second run changes
    nothing. *)
Lemma repair_twice_is_repair_once_example :
  ∃ (w1 : World Z) (out'' : list message),
    fix_event_numbers h5_getitem "run_0001.h5" (mkWorld both_defects_file [])
    = (OK tt, w1)
    ∧ fix_event_numbers h5_getitem "run_0001.h5" (mkWorld (file w1) [])
      = (OK tt, mkWorld (file w1) out'').
Proof.
  assert (fix_event_numbers h5_getitem "run_0001.h5"
            (mkWorld both_defects_file [])
          = (OK tt,
             (fix_event_numbers h5_getitem "run_0001.h5"
                (mkWorld both_defects_file [])).2)) as Hfirst.
  { vm_compute. reflexivity. }
  destruct (repair_twice_is_repair_once "run_0001.h5" both_defects_file [] _
              Hfirst []) as [out'' Hsecond].
  eexists _, out''. split; [exact Hfirst|exact Hsecond].
Defined.

(** ** The checker and the file *)

Section CheckerFile.
Implicit Types (w : World Header) (c : Container Header) (gg fg : Group Header).

Lemma preserves_index {X} (f : Container Header → X) (header : Header) (i : nat) :
  preserves f (index header i).
Proof. intros w. unfold index. by destruct (header !! i). Qed.

Lemma preserves_scan {X} (f : Container Header → X) (get_group frib_group : handle)
    (offset : spec_float) (events : list Z) :
  preserves f (scan get_group frib_group offset events).
Proof.
  induction events as [|event rest IH]; cbn [scan].
  - apply preserves_print.
  - apply preserves_bind; [apply preserves_read|intros get_header].
    apply preserves_bind; [apply preserves_read|intros frib_header].
    apply preserves_bind; [apply preserves_index|intros g].
    apply preserves_bind; [apply preserves_index|intros f0].
    destruct (exceeds _ _); [apply preserves_print|apply IH].
Qed.

(** X3.  [check_timestamps] never changes the file, whatever the file
    holds and whether it reports a match, reports a mismatch or raises. *)
Theorem check_timestamps_read_only (path : string) (w : World Header) :
  file (check_timestamps path w).2 = file w.
Proof.
  revert w. change (preserves (λ c : Container Header, c) (check_timestamps path)).
  unfold check_timestamps.
  apply preserves_bind; [apply preserves_print|intros _].
  apply preserves_bind; [apply preserves_meta_get|intros event_min].
  apply preserves_bind; [apply preserves_meta_get|intros event_max].
  apply preserves_open_bind. apply preserves_open_bind.
  apply preserves_bind; [apply preserves_read|intros get_header].
  apply preserves_bind; [apply preserves_index|intros g].
  apply preserves_bind; [apply preserves_read|intros frib_header].
  apply preserves_bind; [apply preserves_index|intros f0].
  apply preserves_scan.
Qed.

Lemma index_bind_None {B} (header : Header) (i : nat) (k : Z → M Header B) w :
  header !! i = None → (index header i ≫= k) w = (Raise (IndexError i), w).
Proof. intros Hv. rewrite bind_run. unfold index. by rewrite Hv. Qed.

Lemma h5_getitem_agree gg gg' (key : string) :
  gg !! key = gg' !! key → h5_getitem gg key = h5_getitem gg' key.
Proof. intros Hkey. unfold h5_getitem. by rewrite Hkey. Qed.

(** Two worlds that have printed the same and whose headers agree on the
    indices of a scan give the same outcome and the same lines. *)
Lemma scan_agree (offset : spec_float) (events : list Z) w w' gg gg' fg fg' :
  stdout w = stdout w' →
  get (file w) = Some gg → get (file w') = Some gg' →
  frib (file w) = Some (Some fg) → frib (file w') = Some (Some fg') →
  (∀ n, n ∈ events →
        gg !! evt_key n "_header" = gg' !! evt_key n "_header"
        ∧ fg !! evt_key n "_header" = fg' !! evt_key n "_header") →
  (scan HGet HFribEvt offset events w).1 = (scan HGet HFribEvt offset events w').1
  ∧ stdout (scan HGet HFribEvt offset events w).2
    = stdout (scan HGet HFribEvt offset events w').2.
Proof.
  intros Hout Hgg Hgg' Hfg Hfg' Hagree.
  assert (deref HFribEvt (file w) = Some fg) as Hd
    by (cbn [deref]; by rewrite Hfg).
  assert (deref HFribEvt (file w') = Some fg') as Hd'
    by (cbn [deref]; by rewrite Hfg').
  induction events as [|event rest IH]; cbn [scan].
  { unfold print. cbn [fst snd stdout]. by rewrite Hout. }
  destruct (Hagree event) as [Hg Hf]; [by left|].
  rewrite (read_bind h5_getitem HGet _ _ w gg Hgg).
  rewrite (read_bind h5_getitem HGet _ _ w' gg' Hgg').
  rewrite (h5_getitem_agree gg gg' _ Hg).
  destruct (h5_getitem gg' (evt_key event "_header")) as [hg|e]; [|by split].
  rewrite (read_bind h5_getitem HFribEvt _ _ w fg Hd).
  rewrite (read_bind h5_getitem HFribEvt _ _ w' fg' Hd').
  rewrite (h5_getitem_agree fg fg' _ Hf).
  destruct (h5_getitem fg' (evt_key event "_header")) as [hf|e]; [|by split].
  destruct (hg !! 2%nat) as [g|] eqn:Hg2.
  2: { rewrite (index_bind_None _ _ _ w), (index_bind_None _ _ _ w') by done.
       by split. }
  rewrite (index_bind _ _ g _ w), (index_bind _ _ g _ w') by done.
  destruct (hf !! 1%nat) as [f0|] eqn:Hf1.
  2: { rewrite (index_bind_None _ _ _ w), (index_bind_None _ _ _ w') by done.
       by split. }
  rewrite (index_bind _ _ f0 _ w), (index_bind _ _ f0 _ w') by done.
  destruct (exceeds (g - f0) offset).
  - unfold print. cbn [fst snd stdout]. by rewrite Hout.
  - apply IH. intros n Hn. apply Hagree. by right.
Qed.

(** X5.  The checker never reads the headers of event event_max: two
    files with the same metadata, event_min below event_max, and the same
    headers for every event but event_max, give the same outcome and the
    same lines. *)
Theorem last_event_never_checked (path : string) (c c' : Container Header)
    (out : list message) (event_min event_max : Z)
    (gg gg' fg fg' : Group Header) :
  meta_data c' = meta_data c →
  meta_data c !! 0%nat = Some event_min →
  meta_data c !! 2%nat = Some event_max →
  event_min < event_max →
  get c = Some gg → get c' = Some gg' →
  frib c = Some (Some fg) → frib c' = Some (Some fg') →
  (∀ n, n ≠ event_max →
        gg !! evt_key n "_header" = gg' !! evt_key n "_header"
        ∧ fg !! evt_key n "_header" = fg' !! evt_key n "_header") →
  (check_timestamps path (mkWorld c out)).1
  = (check_timestamps path (mkWorld c' out)).1
  ∧ stdout (check_timestamps path (mkWorld c out)).2
    = stdout (check_timestamps path (mkWorld c' out)).2.
Proof.
  intros Hmeta Hm0 Hm2 Hlt Hgg Hgg' Hfg Hfg' Hagree.
  assert (meta_data c' !! 0%nat = Some event_min) as Hm0' by by rewrite Hmeta.
  assert (meta_data c' !! 2%nat = Some event_max) as Hm2' by by rewrite Hmeta.
  unfold check_timestamps. rewrite !print_bind. cbn [file stdout].
  set (w := mkWorld c (out ++ [MsgCheckingTimestamps])).
  set (w' := mkWorld c' (out ++ [MsgCheckingTimestamps])).
  assert (deref HFribEvt (file w) = Some fg) as Hd
    by (cbn [deref file w]; by rewrite Hfg).
  assert (deref HFribEvt (file w') = Some fg') as Hd'
    by (cbn [deref file w']; by rewrite Hfg').
  rewrite (meta_get_bind _ _ w event_min) by exact Hm0.
  rewrite (meta_get_bind _ _ w' event_min) by exact Hm0'.
  rewrite (meta_get_bind _ _ w event_max) by exact Hm2.
  rewrite (meta_get_bind _ _ w' event_max) by exact Hm2'.
  rewrite (open_group_bind HGet _ w gg) by exact Hgg.
  rewrite (open_group_bind HGet _ w' gg') by exact Hgg'.
  rewrite (open_group_bind HFribEvt _ w fg) by exact Hd.
  rewrite (open_group_bind HFribEvt _ w' fg') by exact Hd'.
  destruct (Hagree event_min) as [Hg Hf]; [lia|].
  rewrite (read_bind h5_getitem HGet _ _ w gg Hgg).
  rewrite (read_bind h5_getitem HGet _ _ w' gg' Hgg').
  rewrite (h5_getitem_agree gg gg' _ Hg).
  destruct (h5_getitem gg' (evt_key event_min "_header")) as [hg|e];
    [|by split].
  destruct (hg !! 2%nat) as [g|] eqn:Hg2.
  2: { rewrite (index_bind_None _ _ _ w), (index_bind_None _ _ _ w') by done.
       by split. }
  rewrite (index_bind _ _ g _ w), (index_bind _ _ g _ w') by done.
  rewrite (read_bind h5_getitem HFribEvt _ _ w fg Hd).
  rewrite (read_bind h5_getitem HFribEvt _ _ w' fg' Hd').
  rewrite (h5_getitem_agree fg fg' _ Hf).
  destruct (h5_getitem fg' (evt_key event_min "_header")) as [hf|e];
    [|by split].
  destruct (hf !! 1%nat) as [f0|] eqn:Hf1.
  2: { rewrite (index_bind_None _ _ _ w), (index_bind_None _ _ _ w') by done.
       by split. }
  rewrite (index_bind _ _ f0 _ w), (index_bind _ _ f0 _ w') by done.
  apply (scan_agree _ _ w w' gg gg' fg fg'); try done.
  intros n Hn. apply Hagree. unfold range in Hn.
  apply elem_of_seqZ in Hn. lia.
Qed.

(** After a repair that has returned on a file without frib/evt, the
    checker raises on the first group it cannot open. *)
Lemma check_after_repair_without_frib (path path' : string) c
    (out : list message) w1 :
  fix_event_numbers h5_getitem path (mkWorld c out) = (OK tt, w1) →
  deref HFribEvt c = None →
  ∀ out' : list message, ∃ key : string,
    check_timestamps path' (mkWorld (file w1) out')
    = (Raise (KeyError key),
       mkWorld (file w1) (out' ++ [MsgCheckingTimestamps]))
    ∧ (key = "get" ∨ key = "frib/evt").
Proof.
  intros Hfix Hnone out'.
  destruct (fix_event_numbers_OK _ _ _ _ _ Hfix)
    as (event_min & event_max & wg & Hm0 & Hm2 & Hget & Hfrib).
  destruct (get_repair_OK _ _ _ _ _ Hm0 Hm2 Hget) as (Hg0 & Hg2 & Hfg).
  assert (deref HFribEvt (file wg) = None) as Hd.
  { cbn [deref] in *. by rewrite Hfg. }
  rewrite frib_repair_absent in Hfrib by done. injection Hfrib as <-.
  cbn [file]. unfold check_timestamps. rewrite print_bind. cbn [file stdout].
  set (w := mkWorld (file wg) (out' ++ [MsgCheckingTimestamps])).
  rewrite (meta_get_bind _ _ w 0) by exact Hg0.
  rewrite (meta_get_bind _ _ w (event_max - event_min)) by exact Hg2.
  rewrite bind_run. unfold open_group at 1. cbn [deref file w].
  destruct (get (file wg)) as [gg|] eqn:Hgg.
  - rewrite bind_run. unfold open_group. cbn [file w]. rewrite Hd.
    exists "frib/evt". by split; [|right].
  - exists "get". by split; [|left].
Qed.

(** X4.  A file without frib/evt on which [fix_event_numbers] has
    returned makes [check_timestamps] raise a [KeyError]: the repair treats
    the missing group as a state of the file, the checker opens it without
    a guard (or raises already on a missing get group). *)
Theorem check_raises_without_frib (path : string) (c : Container Header)
    (out : list message) (w1 : World Header) :
  fix_event_numbers h5_getitem path (mkWorld c out) = (OK tt, w1) →
  deref HFribEvt c = None →
  ∀ out' : list message, ∃ key : string,
    check_timestamps path (mkWorld (file w1) out')
    = (Raise (KeyError key),
       mkWorld (file w1) (out' ++ [MsgCheckingTimestamps]))
    ∧ (key = "get" ∨ key = "frib/evt").
Proof. apply check_after_repair_without_frib. Qed.

End CheckerFile.

(** [drift_file] and [drift_file_last] differ in the header of event 4,
    the event_max of both: the checker tells no difference. *)
Lemma last_event_never_checked_example :
  (check_timestamps "run_0001.h5" (mkWorld drift_file [])).1
  = (check_timestamps "run_0001.h5" (mkWorld drift_file_last [])).1
  ∧ stdout (check_timestamps "run_0001.h5" (mkWorld drift_file [])).2
    = stdout (check_timestamps "run_0001.h5" (mkWorld drift_file_last [])).2.
Proof.
  apply (last_event_never_checked "run_0001.h5" drift_file drift_file_last []
           0 4 (get_headers [100; 101; 103; 110])
           (<[evt_key 4 "_header" := [4; 0; 999]]>
              (get_headers [100; 101; 103; 110]))
           (frib_headers [0; 0; 0]) (frib_headers [0; 0; 0])).
  - reflexivity.
  - reflexivity.
  - reflexivity.
  - lia.
  - reflexivity.
  - reflexivity.
  - reflexivity.
  - reflexivity.
  - intros n Hn. split; [|reflexivity].
    rewrite lookup_insert_ne; [reflexivity|].
    intros E. apply evt_key_inj in E. lia.
Defined.

(** [no_frib_file] is repaired without complaint, and the checker then
    raises on the missing frib/evt. *)
Lemma check_raises_without_frib_example :
  ∃ (w1 : World Header) (key : string),
    fix_event_numbers h5_getitem "run_0001.h5" (mkWorld no_frib_file [])
    = (OK tt, w1)
    ∧ check_timestamps "run_0001.h5" (mkWorld (file w1) [])
      = (Raise (KeyError key),
         mkWorld (file w1) ([] ++ [MsgCheckingTimestamps]))
    ∧ (key = "get" ∨ key = "frib/evt").
Proof.
  assert (fix_event_numbers h5_getitem "run_0001.h5" (mkWorld no_frib_file [])
          = (OK tt,
             (fix_event_numbers h5_getitem "run_0001.h5"
                (mkWorld no_frib_file [])).2)) as Hfix.
  { vm_compute. reflexivity. }
  destruct (check_raises_without_frib "run_0001.h5" no_frib_file [] _ Hfix
              eq_refl []) as (key & Hcheck & Hkey).
  eexists _, key. split; [exact Hfix|]. split; [exact Hcheck|exact Hkey].
Defined.

(** ** The driver *)

Section DriverProperties.
Context {Path : Type} `{Countable Path}.
Context (joinpath : Path → string → Path) (path_str : Path → string)
        (path_of : string → Path).
Implicit Types (d : Disk (Path := Path)) (p path : Path).

Lemma with_file_other (writable : bool) path (banner : message)
    (body : M Header unit) d p :
  p ≠ path → files (with_file writable path banner body d).2 !! p = files d !! p.
Proof.
  intros Hne. unfold with_file.
  destruct (files d !! path) as [[c|]|]; [|done..].
  destruct (body (mkWorld c [])) as [r w]. cbn [snd files].
  destruct writable; [by rewrite lookup_insert_ne|done].
Qed.

Lemma with_file_dom (writable : bool) path (banner : message)
    (body : M Header unit) d :
  dom (files (with_file writable path banner body d).2) = dom (files d).
Proof.
  unfold with_file.
  destruct (files d !! path) as [[c|]|] eqn:Hp; [|done..].
  destruct (body (mkWorld c [])) as [r w]. cbn [snd files].
  destruct writable; [|done].
  apply dom_insert_lookup_L. by eexists.
Qed.

Lemma with_file_run (writable : bool) path (banner : message)
    (body : M Header unit) d (c : Container Header) (r : result unit)
    (w : World Header) :
  files d !! path = Some (RunFile c) →
  body (mkWorld c []) = (r, w) →
  with_file writable path banner body d
  = (r,
     mkDisk (if writable then <[path := RunFile (file w)]> (files d)
             else files d)
            (console d ++ (LineOf <$> stdout w))).
Proof. intros Hp Hbody. unfold with_file. by rewrite Hp, Hbody. Qed.

(** One turn of the loop keeps a property of the directory that every
    opening of a file keeps. *)
Lemma main_loop_invariant (P : Disk (Path := Path) → Prop) (dir_path : Path)
    (runs : list Z) d :
  (∀ run writable banner body d',
     run ∈ runs → P d' →
     P (with_file writable (make_run_path joinpath dir_path run) banner body d').2) →
  P d → P (main_loop joinpath path_str dir_path runs d).2.
Proof.
  revert d. induction runs as [|run runs IH]; intros d Hstep Hd; [done|].
  cbn [main_loop].
  assert (∀ d', P d' → P (main_loop joinpath path_str dir_path runs d').2)
    as Hrest.
  { intros d' Hd'. apply IH; [|done].
    intros run' writable banner body d0 Hin. apply Hstep. by right. }
  destruct (files d !! make_run_path joinpath dir_path run); [|by apply Hrest].
  pose proof (Hstep run true (MsgFixingRun
                (path_str (make_run_path joinpath dir_path run)))
                (fix_event_numbers h5_getitem
                   (path_str (make_run_path joinpath dir_path run)))
                d ltac:(by left) Hd) as H1.
  destruct (with_file true _ _ _ d) as [[[]|e] d1]; [|done].
  pose proof (Hstep run false MsgCheckingTimestamps
                (check_timestamps
                   (path_str (make_run_path joinpath dir_path run)))
                d1 ltac:(by left) H1) as H2.
  destruct (with_file false _ _ _ d1) as [[[]|e] d2]; [|done].
  by apply Hrest.
Qed.

(** X11.  [main] changes no file but the run files of the runs from
    run_min to run_max: a path that is the path of none of these runs leads
    after [main] to what it led to before. *)
Theorem main_leaves_other_files (directory : string) (run_min run_max : Z)
    (d : Disk (Path := Path)) (p : Path) :
  (∀ run, run_min ≤ run ≤ run_max →
          p ≠ make_run_path joinpath (path_of directory) run) →
  files (main joinpath path_str path_of directory run_min run_max d).2 !! p
  = files d !! p.
Proof.
  intros Hp. unfold main.
  apply (main_loop_invariant (λ d', files d' !! p = files d !! p)); [|done].
  intros run writable banner body d' Hin Hd'.
  rewrite with_file_other; [done|].
  apply Hp. unfold range in Hin. apply elem_of_seqZ in Hin. lia.
Qed.

(** X12.  [main] creates no file and deletes none: the paths of the
    directory after [main] are the paths before, whether it returns or
    raises. *)
Theorem main_keeps_paths (directory : string) (run_min run_max : Z)
    (d : Disk (Path := Path)) :
  dom (files (main joinpath path_str path_of directory run_min run_max d).2)
  = dom (files d).
Proof.
  unfold main.
  apply (main_loop_invariant (λ d', dom (files d') = dom (files d))); [|done].
  intros run writable banner body d' Hin Hd'. by rewrite with_file_dom.
Qed.

Lemma main_loop_skips (dir_path : Path) (runs rest : list Z) d :
  (∀ run, run ∈ runs → files d !! make_run_path joinpath dir_path run = None) →
  main_loop joinpath path_str dir_path (runs ++ rest) d
  = main_loop joinpath path_str dir_path rest d.
Proof.
  induction runs as [|run runs IH]; intros Hmiss; [done|].
  cbn [app main_loop]. rewrite Hmiss by left.
  apply IH. intros run' Hin. apply Hmiss. by right.
Qed.

(** X13.  When none of the runs from run_min to run_max has a file,
    [main] prints its four lines, opens nothing and returns; so it does
    when run_max is below run_min. *)
Theorem main_skips_missing_runs (directory : string) (run_min run_max : Z)
    (d : Disk (Path := Path)) :
  (∀ run, run_min ≤ run ≤ run_max →
          files d !! make_run_path joinpath (path_of directory) run = None) →
  main joinpath path_str path_of directory run_min run_max d
  = (OK tt,
     mkDisk (files d)
            (console d ++ [LineRunning; LineDirectory directory;
                           LineFirstRun run_min; LineLastRun run_max])).
Proof.
  intros Hmiss. unfold main.
  rewrite <-(app_nil_r (range run_min (run_max + 1))).
  rewrite main_loop_skips; [done|].
  intros run Hin. unfold range in Hin. apply elem_of_seqZ in Hin.
  apply Hmiss. lia.
Qed.

(** X14.  [main] stops at the first run it finds whose file has no
    frib/evt and on which the repair returns: the checker raises a
    [KeyError] that nothing catches.  The file of that run is left as the
    repair left it, and the runs after it are not opened, whether they have
    a file or not. *)
Theorem main_stops_at_run_without_frib (directory : string)
    (run_min run_max run : Z) (d : Disk (Path := Path))
    (c : Container Header) (w1 : World Header) :
  run_min ≤ run ≤ run_max →
  (∀ earlier, run_min ≤ earlier < run →
     files d !! make_run_path joinpath (path_of directory) earlier = None) →
  files d !! make_run_path joinpath (path_of directory) run = Some (RunFile c) →
  fix_event_numbers h5_getitem
    (path_str (make_run_path joinpath (path_of directory) run)) (mkWorld c [])
  = (OK tt, w1) →
  deref HFribEvt c = None →
  ∃ key : string,
    main joinpath path_str path_of directory run_min run_max d
    = (Raise (KeyError key),
       mkDisk (<[make_run_path joinpath (path_of directory) run
                 := RunFile (file w1)]> (files d))
              ((console d ++ [LineRunning; LineDirectory directory;
                              LineFirstRun run_min; LineLastRun run_max])
                 ++ (LineOf <$> stdout w1)
                 ++ [LineOf MsgCheckingTimestamps]))
    ∧ (key = "get" ∨ key = "frib/evt").
Proof.
  intros Hrun Hearlier Hfile Hfix Hnone.
  destruct (check_after_repair_without_frib _
              (path_str (make_run_path joinpath (path_of directory) run))
              _ _ _ Hfix Hnone []) as (key & Hcheck & Hkey).
  exists key. split; [|done].
  unfold main, range.
  replace (run_max + 1 - run_min)
    with ((run - run_min) + (run_max + 1 - run)) by lia.
  rewrite seqZ_app by lia.
  rewrite main_loop_skips.
  2: { intros earlier Hin. apply elem_of_seqZ in Hin. apply Hearlier. lia. }
  rewrite (seqZ_cons (run_min + (run - run_min))) by lia.
  replace (run_min + (run - run_min)) with run by lia.
  set (p := make_run_path joinpath (path_of directory) run) in *.
  set (d0 := mkDisk (files d)
               (console d ++ [LineRunning; LineDirectory directory;
                              LineFirstRun run_min; LineLastRun run_max])).
  cbn [main_loop]. fold p.
  assert (files d0 !! p = Some (RunFile c)) as Hfile0 by exact Hfile.
  rewrite Hfile0.
  rewrite (with_file_run true p _ _ d0 c _ _ Hfile0 Hfix).
  rewrite (with_file_run false p _ _ _ (file w1) _ _
             (lookup_insert_eq _ _ _) Hcheck).
  cbn [stdout files console d0].
  by rewrite fmap_app, <-!app_assoc.
Qed.

End DriverProperties.

(** The file [notes.txt] of [data_disk] is the run file of no run. *)
Lemma main_leaves_other_files_example :
  files (main parts_join parts_str parts_of "data" 1 3 data_disk).2
    !! ["data"; "notes.txt"]
  = files data_disk !! ["data"; "notes.txt"].
Proof.
  apply (main_leaves_other_files parts_join parts_str parts_of "data" 1 3
           data_disk ["data"; "notes.txt"]).
  intros run Hrun E.
  assert (run = 1 ∨ run = 2 ∨ run = 3) as Hc by lia.
  destruct Hc as [->|[->| ->]]; vm_compute in E; discriminate.
Defined.

(** [data_disk] has no file for the runs 5 to 9. *)
Lemma main_skips_missing_runs_example :
  main parts_join parts_str parts_of "data" 5 9 data_disk
  = (OK tt,
     mkDisk (files data_disk)
            (console data_disk
               ++ [LineRunning; LineDirectory "data"; LineFirstRun 5;
                   LineLastRun 9])).
Proof.
  apply (main_skips_missing_runs parts_join parts_str parts_of "data" 5 9
           data_disk).
  intros run Hrun.
  assert (run = 5 ∨ run = 6 ∨ run = 7 ∨ run = 8 ∨ run = 9) as Hc by lia.
  destruct Hc as [->|[->|[->|[->| ->]]]]; vm_compute; reflexivity.
Defined.

(** On [data_disk], [main] for the runs 1 to 3 finds no run 1, repairs run
    2, which has no frib group, and stops in the checker: the file of run
    3 is not opened. *)
Lemma main_stops_at_run_without_frib_example :
  ∃ (w1 : World Header) (key : string),
    main parts_join parts_str parts_of "data" 1 3 data_disk
    = (Raise (KeyError key),
       mkDisk (<[make_run_path parts_join (parts_of "data") 2
                 := RunFile (file w1)]> (files data_disk))
              ((console data_disk
                  ++ [LineRunning; LineDirectory "data"; LineFirstRun 1;
                      LineLastRun 3])
                 ++ (LineOf <$> stdout w1)
                 ++ [LineOf MsgCheckingTimestamps]))
    ∧ (key = "get" ∨ key = "frib/evt").
Proof.
  assert (fix_event_numbers h5_getitem
            (parts_str (make_run_path parts_join (parts_of "data") 2))
            (mkWorld no_frib_file [])
          = (OK tt,
             (fix_event_numbers h5_getitem
                (parts_str (make_run_path parts_join (parts_of "data") 2))
                (mkWorld no_frib_file [])).2)) as Hfix.
  { vm_compute. reflexivity. }
  destruct (main_stops_at_run_without_frib parts_join parts_str parts_of
              "data" 1 3 2 data_disk no_frib_file
              (fix_event_numbers h5_getitem
                 (parts_str (make_run_path parts_join (parts_of "data") 2))
                 (mkWorld no_frib_file [])).2) as (key & Hmain & Hkey).
  - lia.
  - intros earlier Hearlier. assert (earlier = 1) as -> by lia.
    vm_compute. reflexivity.
  - vm_compute. reflexivity.
  - exact Hfix.
  - reflexivity.
  - eexists _, key. split; [exact Hmain|exact Hkey].
Defined.

(** ** A header that is missing *)

Section MissingHeader.
Implicit Types (w : World Header) (gg fg : Group Header).

Lemma scan_raises (offset : spec_float) (G F : Z → Z) (before : list Z)
    (event : Z) (after : list Z) w gg fg :
  get (file w) = Some gg → frib (file w) = Some (Some fg) →
  (∀ n, n ∈ before →
        get_timestamp gg n = Some (G n) ∧ frib_timestamp fg n = Some (F n)) →
  (∀ n, n ∈ before → exceeds (G n - F n) offset = false) →
  gg !! evt_key event "_header" = None
    ∨ (is_Some (gg !! evt_key event "_header")
       ∧ fg !! evt_key event "_header" = None) →
  scan HGet HFribEvt offset (before ++ event :: after) w
  = (Raise (KeyError (evt_key event "_header")), w).
Proof.
  intros Hgg Hfg Hts Hok Hmiss.
  assert (deref HFribEvt (file w) = Some fg) as Hd
    by (cbn [deref]; by rewrite Hfg).
  induction before as [|n before IH]; cbn [app].
  - cbn [scan]. rewrite (read_bind h5_getitem HGet _ _ w gg Hgg).
    unfold h5_getitem at 1.
    destruct Hmiss as [Hg|[[hg Hg] Hf]]; rewrite Hg; [done|].
    rewrite (read_bind h5_getitem HFribEvt _ _ w fg Hd).
    unfold h5_getitem. by rewrite Hf.
  - destruct (Hts n) as [Hg Hf]; [by left|].
    rewrite (scan_cons _ _ _ _ gg fg _ _ Hgg Hfg Hg Hf), Hok by left.
    apply IH.
    + intros m Hm. apply Hts. by right.
    + intros m Hm. apply Hok. by right.
Qed.

(** X15.  When the headers of the indices before [event] are there and
    within the tolerance, and the get header of [event] is missing, or it
    is there and the frib header of [event] is missing, the checker raises
    the [KeyError] of the name [evt{event}_header] after its first line,
    with no report on the indices it has passed. *)
Theorem missing_header_raises (path : string) (c : Container Header)
    (out : list message) (event_min event_max event : Z)
    (gg fg : Group Header) (G F : Z → Z) :
  meta_data c !! 0%nat = Some event_min →
  meta_data c !! 2%nat = Some event_max →
  get c = Some gg →
  frib c = Some (Some fg) →
  get_timestamp gg event_min = Some (G event_min) →
  frib_timestamp fg event_min = Some (F event_min) →
  event_min ≤ event < event_max →
  (∀ n, event_min ≤ n < event →
        get_timestamp gg n = Some (G n) ∧ frib_timestamp fg n = Some (F n)) →
  (∀ n, event_min ≤ n < event →
        exceeds (G n - F n)
          (float_sub (py_float (G event_min)) (py_float (F event_min)))
        = false) →
  gg !! evt_key event "_header" = None
    ∨ (is_Some (gg !! evt_key event "_header")
       ∧ fg !! evt_key event "_header" = None) →
  check_timestamps path (mkWorld c out)
  = (Raise (KeyError (evt_key event "_header")),
     mkWorld c (out ++ [MsgCheckingTimestamps])).
Proof.
  intros Hm0 Hm2 Hgg Hfg Hg0 Hf0 Hev Hts Hok Hmiss.
  rewrite (check_timestamps_run path c out _ _ gg fg _ _ Hm0 Hm2 Hgg Hfg Hg0 Hf0).
  unfold range.
  replace (event_max - event_min)
    with ((event - event_min) + (event_max - event)) by lia.
  rewrite seqZ_app by lia.
  rewrite (seqZ_cons (event_min + (event - event_min))) by lia.
  replace (event_min + (event - event_min)) with event by lia.
  apply (scan_raises _ G F _ event _ (mkWorld c _) gg fg Hgg Hfg).
  - intros n Hn. apply elem_of_seqZ in Hn. apply Hts. lia.
  - intros n Hn. apply elem_of_seqZ in Hn. apply Hok. lia.
  - done.
Qed.

End MissingHeader.

(** [short_get_file] has no get header for event 2. *)
Lemma missing_header_raises_example :
  check_timestamps "run_0001.h5" (mkWorld short_get_file [])
  = (Raise (KeyError (evt_key 2 "_header")),
     mkWorld short_get_file ([] ++ [MsgCheckingTimestamps])).
Proof.
  apply (missing_header_raises "run_0001.h5" short_get_file [] 0 4 2
           (get_headers [100; 101]) (frib_headers [0; 0; 0])
           drift_get (λ _, 0)).
  - reflexivity.
  - reflexivity.
  - reflexivity.
  - reflexivity.
  - vm_compute. reflexivity.
  - vm_compute. reflexivity.
  - lia.
  - intros n Hn. assert (n = 0 ∨ n = 1) as Hc by lia.
    destruct Hc as [->| ->]; split; vm_compute; reflexivity.
  - intros n Hn. assert (n = 0 ∨ n = 1) as Hc by lia.
    destruct Hc as [->| ->]; vm_compute; reflexivity.
  - left. vm_compute. reflexivity.
Defined.
